(** * Meshtastic UI: a shallow embedding of [meshtastic_ui.py]

    The window controller [MeshtasticApp] is modelled as functions in a
    state-and-exception monad over a record holding the attributes of the
    window (device handle, node list, message log, input box) together with
    the part of the outside world the methods touch (terminal, disk, calls
    made on the device handle). *)

From Stdlib Require Import ZArith NArith Ascii String List.
From Stdlib.Strings Require Import Byte.
From stdpp Require Import base option list gmap strings pretty.
Import ListNotations.

Local Open Scope N_scope.
Local Open Scope list_scope.

(** ** Python values *)

(** A Python [str] is a sequence of Unicode code points. *)
Abbreviation pystr := (list N).

(** A string literal of the source, as code points (the literals of the
    program are ASCII). *)
Definition lit (s : string) : pystr :=
  map N_of_ascii (list_ascii_of_string s).

(** The one-character string [\n]. *)
Definition newline : string := String "010" EmptyString.

(** [str.isspace] on one code point: the table of CPython's
    [_Py_ascii_whitespace] and [_PyUnicode_IsWhitespace]. *)
Definition isspace (c : N) : bool :=
  ((0x09 <=? c) && (c <=? 0x0D)) || ((0x1C <=? c) && (c <=? 0x20))
  || (c =? 0x85) || (c =? 0xA0) || (c =? 0x1680)
  || ((0x2000 <=? c) && (c <=? 0x200A))
  || (c =? 0x2028) || (c =? 0x2029) || (c =? 0x202F) || (c =? 0x205F)
  || (c =? 0x3000).

Fixpoint lstrip (s : pystr) : pystr :=
  match s with
  | c :: s' => if isspace c then lstrip s' else s
  | [] => []
  end.

Definition rstrip (s : pystr) : pystr := rev (lstrip (rev s)).

(** [s.strip()] with no argument. *)
Definition strip (s : pystr) : pystr := rstrip (lstrip s).

(** [bytes.decode("utf-8")] in strict mode: [None] stands for
    [UnicodeDecodeError].  Overlong forms, surrogates and code points above
    U+10FFFF are rejected. *)
Definition is_cont (b : N) : bool := (0x80 <=? b) && (b <=? 0xBF).

Fixpoint decode_utf8 (bs : list Byte.byte) : option pystr :=
  match bs with
  | [] => Some []
  | b0 :: r0 =>
    let n0 := Byte.to_N b0 in
    if n0 <? 0x80 then cons n0 <$> decode_utf8 r0
    else if (0xC2 <=? n0) && (n0 <=? 0xDF) then
      match r0 with
      | b1 :: r1 =>
        let n1 := Byte.to_N b1 in
        if is_cont n1
        then cons ((n0 - 0xC0) * 64 + (n1 - 0x80)) <$> decode_utf8 r1
        else None
      | _ => None
      end
    else if (0xE0 <=? n0) && (n0 <=? 0xEF) then
      match r0 with
      | b1 :: b2 :: r2 =>
        let n1 := Byte.to_N b1 in
        let n2 := Byte.to_N b2 in
        let cp := (n0 - 0xE0) * 4096 + (n1 - 0x80) * 64 + (n2 - 0x80) in
        if is_cont n1 && is_cont n2 && (0x800 <=? cp)
           && negb ((0xD800 <=? cp) && (cp <=? 0xDFFF))
        then cons cp <$> decode_utf8 r2
        else None
      | _ => None
      end
    else if (0xF0 <=? n0) && (n0 <=? 0xF4) then
      match r0 with
      | b1 :: b2 :: b3 :: r3 =>
        let n1 := Byte.to_N b1 in
        let n2 := Byte.to_N b2 in
        let n3 := Byte.to_N b3 in
        let cp := (n0 - 0xF0) * 262144 + (n1 - 0x80) * 4096
                  + (n2 - 0x80) * 64 + (n3 - 0x80) in
        if is_cont n1 && is_cont n2 && is_cont n3
           && (0x10000 <=? cp) && (cp <=? 0x10FFFF)
        then cons cp <$> decode_utf8 r3
        else None
      | _ => None
      end
    else None
  end.

(** The values a packet and a node table are made of.  A [dict] keeps its
    items in insertion order; its keys are strings, as in the mappings the
    device library delivers. *)
#[warnings="-register-all"]
Inductive pyval : Type :=
| PyNone
| PyInt (z : Z)
| PyStr (s : pystr)
| PyBytes (b : list Byte.byte)
| PyDict (items : list (pystr * pyval)).

Fixpoint dict_lookup (k : pystr) (items : list (pystr * pyval)) : option pyval :=
  match items with
  | [] => None
  | (k', v) :: rest => if decide (k' = k) then Some v else dict_lookup k rest
  end.

Definition type_name (v : pyval) : pystr :=
  match v with
  | PyNone => lit "NoneType"
  | PyInt _ => lit "int"
  | PyStr _ => lit "str"
  | PyBytes _ => lit "bytes"
  | PyDict _ => lit "dict"
  end.

(** ** Exceptions *)

(** The subclasses of [Exception] the handlers of the program tell apart,
    and [OtherException] for every other one.  All but [KeyError] carry the
    text [str(e)] gives. *)
Inductive exn : Type :=
| KeyError (key : pystr)
| UnicodeDecodeError (text : pystr)
| FileNotFoundError (text : pystr)
| OtherException (text : pystr).

(** [str(e)].  For a [KeyError] it is the [repr] of the key; the keys the
    program looks up are the literals ['decoded'], ['portnum'], ['payload']
    and ['from'], whose [repr] is the key between single quotes. *)
Definition str_exn (e : exn) : pystr :=
  match e with
  | KeyError k => lit "'" ++ k ++ lit "'"
  | UnicodeDecodeError t => t
  | FileNotFoundError t => t
  | OtherException t => t
  end.

Inductive outcome (A : Type) : Type :=
| Ok (a : A)
| Raise (e : exn).
Arguments Ok {A} a.
Arguments Raise {A} e.

(** ** The device library and the runtime *)

(** A [SerialInterface] object: its node table and what its methods do when
    called ([Some text]: the call raises an exception whose [str] is
    [text]). *)
Record Interface : Type := {
  nodes : pyval;
  onReceive : bool;
  sendText_raises : pystr -> option pystr;
  close_raises : option pystr;
}.

(** Calls made on the device handle, oldest first. *)
Inductive call : Type :=
| CallSendText (message : pystr)
| CallClose.

(** What the program takes from outside the file: [str()] of a value (used by
    the f-strings); the expression [mesh_pb2.PortNum.TEXT_MESSAGE_APP]; the
    constructor [SerialInterface(devPath=...)] ([inl text]: it raises); and
    the text of the [UnicodeDecodeError] of a payload.

    Evaluating [mesh_pb2.PortNum.TEXT_MESSAGE_APP] is two attribute lookups
    on an imported module.  [inl text]: the lookup raises [AttributeError]
    with that text (the module [mesh_pb2] has no [PortNum]).  [inr test]:
    it gives the marker, and [test v] is [v == marker]. *)
Class Runtime : Type := {
  py_str : pyval -> pystr;
  PortNum_TEXT_MESSAGE_APP : pystr + (pyval -> bool);
  SerialInterface : pystr -> pystr + Interface;
  codec_error_text : list Byte.byte -> pystr;
}.

(** A disk entry. *)
Inductive fnode : Type :=
| RegularFile (content : pystr)
| Directory.

(** ** State *)

Record State : Type := {
  interface : option Interface;   (* self.interface *)
  node_list : list pystr;         (* items of the QListWidget *)
  message_list : list pystr;      (* paragraphs of the QTextEdit *)
  message_input : pystr;          (* text of the QLineEdit *)
  stdout : list pystr;            (* what print() wrote, one entry per call *)
  disk : gmap string fnode;       (* files by path *)
  calls : list call;              (* calls made on device handles *)
}.

Definition set_interface (i : option Interface) (s : State) : State :=
  {| interface := i; node_list := node_list s; message_list := message_list s;
     message_input := message_input s; stdout := stdout s; disk := disk s;
     calls := calls s |}.

Definition set_node_list (l : list pystr) (s : State) : State :=
  {| interface := interface s; node_list := l; message_list := message_list s;
     message_input := message_input s; stdout := stdout s; disk := disk s;
     calls := calls s |}.

Definition set_message_list (l : list pystr) (s : State) : State :=
  {| interface := interface s; node_list := node_list s; message_list := l;
     message_input := message_input s; stdout := stdout s; disk := disk s;
     calls := calls s |}.

Definition set_message_input (t : pystr) (s : State) : State :=
  {| interface := interface s; node_list := node_list s;
     message_list := message_list s; message_input := t; stdout := stdout s;
     disk := disk s; calls := calls s |}.

Definition set_stdout (l : list pystr) (s : State) : State :=
  {| interface := interface s; node_list := node_list s;
     message_list := message_list s; message_input := message_input s;
     stdout := l; disk := disk s; calls := calls s |}.

Definition set_disk (d : gmap string fnode) (s : State) : State :=
  {| interface := interface s; node_list := node_list s;
     message_list := message_list s; message_input := message_input s;
     stdout := stdout s; disk := d; calls := calls s |}.

Definition set_calls (l : list call) (s : State) : State :=
  {| interface := interface s; node_list := node_list s;
     message_list := message_list s; message_input := message_input s;
     stdout := stdout s; disk := disk s; calls := l |}.

(** ** The monad: state that survives an exception *)

Definition M (A : Type) : Type := State -> outcome A * State.

Definition ret {A} (a : A) : M A := fun s => (Ok a, s).
Definition raise {A} (e : exn) : M A := fun s => (Raise e, s).
Definition bind {A B} (m : M A) (k : A -> M B) : M B :=
  fun s =>
    match m s with
    | (Ok a, s') => k a s'
    | (Raise e, s') => (Raise e, s')
    end.

(** [try: body except ...: handler]; a handler that is [None] for an
    exception lets it through. *)
Definition try_except (body : M unit) (handler : exn -> option (M unit)) : M unit :=
  fun s =>
    match body s with
    | (Ok tt, s') => (Ok tt, s')
    | (Raise e, s') =>
      match handler e with
      | Some h => h s'
      | None => (Raise e, s')
      end
    end.

Definition get {A} (f : State -> A) : M A := fun s => (Ok (f s), s).
Definition modify (f : State -> State) : M unit := fun s => (Ok tt, f s).

Declare Scope py_scope.
Delimit Scope py_scope with py.
Notation "x <- m ;; k" := (bind m (fun x => k))
  (at level 100, m at next level, right associativity) : py_scope.
Notation "m ;; k" := (bind m (fun _ => k))
  (at level 100, right associativity) : py_scope.
Local Open Scope py_scope.

(** The state an operation leaves and whether it raised. *)
Definition final {A} (m : M A) (s : State) : State := snd (m s).
Definition result {A} (m : M A) (s : State) : outcome A := fst (m s).

(** ** Python operations the methods use *)

(** [for x in xs: body]. *)
Fixpoint for_each {A} (xs : list A) (body : A -> M unit) : M unit :=
  match xs with
  | [] => ret tt
  | x :: rest => body x;; for_each rest body
  end.

(** [AttributeError] for a method the value's type does not have. *)
Definition attribute_error (v : pyval) (attr : string) : exn :=
  OtherException
    (lit "'" ++ type_name v ++ lit "' object has no attribute '" ++ lit attr ++ lit "'").

(** [v[k]] with a string key: [KeyError] on a dict without the key,
    [TypeError] (with CPython 3.11's wording) on a value that is no dict. *)
Definition subscript (v : pyval) (k : string) : M pyval :=
  match v with
  | PyDict items =>
    match dict_lookup (lit k) items with
    | Some x => ret x
    | None => raise (KeyError (lit k))
    end
  | PyStr _ => raise (OtherException (lit "string indices must be integers, not 'str'"))
  | PyBytes _ => raise (OtherException (lit "byte indices must be integers or slices, not str"))
  | _ => raise (OtherException (lit "'" ++ type_name v ++ lit "' object is not subscriptable"))
  end.

(** [v.get(k, default)]. *)
Definition dict_get (v : pyval) (k : string) (default : pyval) : M pyval :=
  match v with
  | PyDict items => ret (from_option id default (dict_lookup (lit k) items))
  | _ => raise (attribute_error v "get")
  end.

(** [v.items()]. *)
Definition dict_items (v : pyval) : M (list (pystr * pyval)) :=
  match v with
  | PyDict items => ret items
  | _ => raise (attribute_error v "items")
  end.

(** Text mode reads with universal newlines: [\r\n] and [\r] become [\n]. *)
Fixpoint universal_newlines (s : pystr) : pystr :=
  match s with
  | [] => []
  | c :: rest =>
    if c =? 13 then
      10 :: match rest with
            | c' :: rest' =>
              if c' =? 10 then universal_newlines rest' else universal_newlines rest
            | [] => []
            end
    else c :: universal_newlines rest
  end.

(** Lines of a text, each with its ending newline. *)
Fixpoint split_keepends (line : pystr) (s : pystr) : list pystr :=
  match s with
  | [] => match line with [] => [] | _ => [line] end
  | c :: rest =>
    if c =? 10 then (line ++ [c]) :: split_keepends [] rest
    else split_keepends (line ++ [c]) rest
  end.

Definition readlines (content : pystr) : list pystr :=
  split_keepends [] (universal_newlines content).

Section Controller.
Context {rt : Runtime}.

(** [self.log_file], set once in [__init__]. *)
Definition log_file : string := "messages.log".

(** [v == mesh_pb2.PortNum.TEXT_MESSAGE_APP], [v] already evaluated: the
    right operand is looked up, which may raise, then the two are
    compared. *)
Definition equals_TEXT_MESSAGE_APP (v : pyval) : M bool :=
  match PortNum_TEXT_MESSAGE_APP with
  | inl text => raise (OtherException text)
  | inr test => ret (test v)
  end.

(** [payload.decode("utf-8")]. *)
Definition decode (v : pyval) : M pystr :=
  match v with
  | PyBytes b =>
    match decode_utf8 b with
    | Some t => ret t
    | None => raise (UnicodeDecodeError (codec_error_text b))
    end
  | _ => raise (attribute_error v "decode")
  end.

(** [with open(path, "a") as f: f.write(text)]: the file is created when
    absent and the text goes after what it holds. *)
Definition append_to_file (path : string) (text : pystr) : M unit :=
  fun s =>
    match disk s !! path with
    | None => (Ok tt, set_disk (<[path := RegularFile text]> (disk s)) s)
    | Some (RegularFile c) =>
      (Ok tt, set_disk (<[path := RegularFile (c ++ text)]> (disk s)) s)
    | Some Directory =>
      (Raise (OtherException (lit "[Errno 21] Is a directory: '" ++ lit path ++ lit "'")), s)
    end.

(** [with open(path, "r") as f: f.readlines()]. *)
Definition read_lines_of_file (path : string) : M (list pystr) :=
  fun s =>
    match disk s !! path with
    | None =>
      (Raise (FileNotFoundError
                (lit "[Errno 2] No such file or directory: '" ++ lit path ++ lit "'")), s)
    | Some (RegularFile c) => (Ok (readlines c), s)
    | Some Directory =>
      (Raise (OtherException (lit "[Errno 21] Is a directory: '" ++ lit path ++ lit "'")), s)
    end.

(** [SerialInterface(devPath=path)]. *)
Definition new_SerialInterface (path : pystr) : M Interface :=
  match SerialInterface path with
  | inl text => raise (OtherException text)
  | inr i => ret i
  end.

(** [iface.sendText(message)]: the call is made, then it may raise. *)
Definition sendText (iface : Interface) (message : pystr) : M unit :=
  modify (fun s => set_calls (calls s ++ [CallSendText message]) s);;
  match sendText_raises iface message with
  | Some text => raise (OtherException text)
  | None => ret tt
  end.

(** [iface.close()]. *)
Definition close (iface : Interface) : M unit :=
  modify (fun s => set_calls (calls s ++ [CallClose]) s);;
  match close_raises iface with
  | Some text => raise (OtherException text)
  | None => ret tt
  end.

(** [QListWidget.addItem] and [QTextEdit.append]. *)
Definition node_list_addItem (item : pystr) : M unit :=
  modify (fun s => set_node_list (node_list s ++ [item]) s).

Definition message_list_append (text : pystr) : M unit :=
  modify (fun s => set_message_list (message_list s ++ [text]) s).

(** ** The methods of [MeshtasticApp]

    [__init__], [initUI] and [apply_dark_mode] build the window: they leave
    the state [initial_state] below and are not called again. *)

(** [print] and [QTextEdit.append] are taken to succeed; one entry of
    [message_list] is what one [append] adds. *)
Definition log_message (message : pystr) : M unit :=
  modify (fun s => set_stdout (stdout s ++ [message]) s);;
  message_list_append message.

(** A [SerialInterface] object is truthy, so [if self.interface] tests
    [is not None]. *)
Definition output_nodes : M unit :=
  i <- get interface;;
  match i with
  | Some iface =>
    modify (set_node_list []);;
    node_list_addItem (lit "Connected Nodes:");;
    items <- dict_items (nodes iface);;
    for_each items (fun '(node_id, node) =>
      user <- dict_get node "user" (PyDict []);;
      node_name <- dict_get user "longName" (PyStr (lit "Unknown Node"));;
      node_list_addItem (py_str (PyStr node_id) ++ lit ": " ++ py_str node_name);;
      log_message (lit "Node " ++ py_str (PyStr node_id) ++ lit ": " ++ py_str node_name))
  | None => log_message (lit "Device not connected. Please connect first.")
  end.

(** The callback the device library calls with a packet.  Its second
    parameter, the interface that delivered the packet, is not used by the
    method and is left out. *)
Definition on_message_received (packet : pyval) : M unit :=
  try_except
    (log_message (lit "Raw packet received: " ++ py_str packet);;
     decoded <- subscript packet "decoded";;
     portnum <- subscript decoded "portnum";;
     is_text <- equals_TEXT_MESSAGE_APP portnum;;
     if is_text then
       decoded <- subscript packet "decoded";;
       payload <- subscript decoded "payload";;
       message <- decode payload;;
       sender <- subscript packet "from";;
       let parsed_message :=
         lit "Message from " ++ py_str sender ++ lit ": " ++ message in
       log_message parsed_message;;
       append_to_file log_file (parsed_message ++ lit newline)
     else
       log_message (lit "Received a non-text packet."))
    (fun e =>
       match e with
       | KeyError _ => Some (log_message (lit "Missing key in packet: " ++ str_exn e))
       | UnicodeDecodeError _ => Some (log_message (lit "Error decoding message payload."))
       | _ => Some (log_message (lit "Error processing message: " ++ str_exn e))
       end).

Definition connect_to_device : M unit :=
  try_except
    (log_message (lit "Connecting to Meshtastic device on /dev/ttyACM0...");;
     iface <- new_SerialInterface (lit "/dev/ttyACM0");;
     modify (set_interface (Some iface));;
     modify (set_interface
               (Some {| nodes := nodes iface; onReceive := true;
                        sendText_raises := sendText_raises iface;
                        close_raises := close_raises iface |}));;
     output_nodes;;
     log_message (lit "Connected to Meshtastic device!"))
    (fun e => Some (log_message (lit "Error connecting to device: " ++ str_exn e))).

Definition load_messages_from_file : M unit :=
  try_except
    (modify (set_message_list []);;
     messages <- read_lines_of_file log_file;;
     for_each messages (fun message => message_list_append (strip message)))
    (fun e =>
       match e with
       | FileNotFoundError _ => Some (log_message (lit "No message log file found."))
       | _ => Some (log_message (lit "Error loading messages: " ++ str_exn e))
       end).

Definition send_message : M unit :=
  i <- get interface;;
  match i with
  | Some iface =>
    text <- get message_input;;
    let message := strip text in
    match message with
    | _ :: _ =>
      sendText iface message;;
      log_message (lit "Sent message: " ++ message);;
      modify (set_message_input [])
    | [] => log_message (lit "Cannot send an empty message.")
    end
  | None => log_message (lit "Device not connected. Please connect first.")
  end.

(** [super().closeEvent(event)] accepts the event and touches nothing of the
    state. *)
Definition closeEvent : M unit :=
  i <- get interface;;
  match i with
  | Some iface => close iface
  | None => ret tt
  end;;
  ret tt.

End Controller.

(** ** A runtime to evaluate the methods on *)

(** [repr] and [str] as CPython computes them.  A string or bytes literal
    is quoted with the single quote unless it holds one and no double
    quote; backslash, the quote, tab, newline and return are escaped, other
    control characters (and, in bytes, all above [0x7e]) are written
    [\xNN].  Code points of a [str] above U+007F are taken as printable. *)
Definition hex_digit (n : N) : N := if n <? 10 then 48 + n else 87 + n.

Definition escape (quote : N) (wide : bool) (c : N) : pystr :=
  if c =? 92 then [92; 92]
  else if c =? quote then [92; c]
  else if c =? 9 then [92; 116]
  else if c =? 10 then [92; 110]
  else if c =? 13 then [92; 114]
  else if (c <? 0x20) || (c =? 0x7F) || (negb wide && (0x80 <=? c))
       then [92; 120; hex_digit (c / 16); hex_digit (c mod 16)]
  else [c].

Definition quote_for (t : pystr) : N :=
  if existsb (N.eqb 39) t && negb (existsb (N.eqb 34) t) then 34 else 39.

Definition quoted (wide : bool) (t : pystr) : pystr :=
  [quote_for t] ++ flat_map (escape (quote_for t) wide) t ++ [quote_for t].

Fixpoint repr_value (v : pyval) : pystr :=
  match v with
  | PyNone => lit "None"
  | PyInt z => lit (pretty z)
  | PyStr s => quoted true s
  | PyBytes b => lit "b" ++ quoted false (map Byte.to_N b)
  | PyDict items =>
    lit "{"
    ++ (fix entries (l : list (pystr * pyval)) : pystr :=
          match l with
          | [] => []
          | (k, x) :: rest =>
            quoted true k ++ lit ": " ++ repr_value x
            ++ match rest with [] => [] | _ => lit ", " ++ entries rest end
          end) items
    ++ lit "}"
  end.

Definition str_value (v : pyval) : pystr :=
  match v with
  | PyStr s => s
  | _ => repr_value v
  end.

(** A device with two known nodes whose calls succeed. *)
Definition bench_device : Interface :=
  {| nodes :=
       PyDict [ (lit "!a1b2c3d4",
                 PyDict [(lit "num", PyInt 2712847316);
                         (lit "user", PyDict [(lit "longName", PyStr (lit "Base"))])]);
                (lit "!0badc0de", PyDict [(lit "num", PyInt 195936478)]) ];
     onReceive := false;
     sendText_raises := fun _ => None;
     close_raises := None |}.

(** The same device with the radio link down: [sendText] raises. *)
Definition unplugged_device : Interface :=
  {| nodes := nodes bench_device;
     onReceive := true;
     sendText_raises := fun _ => Some (lit "write failed: device disconnected");
     close_raises := None |}.

(** A library whose [mesh_pb2] carries [PortNum], as the program expects:
    the text marker is the enum value 1 of the protocol definition; the
    serial port answers on the path the program uses. *)
Definition bench_runtime : Runtime :=
  {| py_str := str_value;
     PortNum_TEXT_MESSAGE_APP :=
       inr (fun v => match v with PyInt 1 => true | _ => false end);
     SerialInterface := fun path =>
       if decide (path = lit "/dev/ttyACM0") then inr bench_device
       else inl (lit "could not open port");
     codec_error_text := fun _ => lit "'utf-8' codec can't decode bytes" |}.

(** The window as [__init__] leaves it, in a directory without a log file. *)
Definition initial_state : State :=
  {| interface := None;
     node_list := [lit "Nodes will appear here..."];
     message_list := [];
     message_input := [];
     stdout := [];
     disk := ∅;
     calls := [] |}.

Definition connected_state (i : Interface) (input : string) : State :=
  set_message_input (lit input) (set_interface (Some i) initial_state).

(** A text packet from node 42 carrying the bytes of [hi]. *)
Definition text_packet : pyval :=
  PyDict [ (lit "from", PyInt 42);
           (lit "decoded",
            PyDict [(lit "portnum", PyInt 1);
                    (lit "payload", PyBytes ["h"%byte; "i"%byte])]) ].

(** A position packet: its portnum is not the text marker. *)
Definition position_packet : pyval :=
  PyDict [ (lit "from", PyInt 42);
           (lit "decoded",
            PyDict [(lit "portnum", PyInt 3);
                    (lit "payload", PyBytes [Byte.x0d; Byte.x01])]) ].

(** A text packet without sender, and one whose payload is the lone byte
    [0xff]. *)
Definition anonymous_packet : pyval :=
  PyDict [ (lit "decoded",
            PyDict [(lit "portnum", PyInt 1);
                    (lit "payload", PyBytes ["h"%byte; "i"%byte])]) ].

Definition garbled_packet : pyval :=
  PyDict [ (lit "from", PyInt 42);
           (lit "decoded",
            PyDict [(lit "portnum", PyInt 1);
                    (lit "payload", PyBytes [Byte.xff])]) ].

(** The window some time into a session: one line on display, and a log
    file that holds one message. *)
Definition earlier_line : pystr := lit "Message from 7: yo".

Definition session_state : State :=
  {| interface := Some bench_device;
     node_list := [lit "Connected Nodes:"];
     message_list := [earlier_line];
     message_input := [];
     stdout := [earlier_line];
     disk := {[ "messages.log" := RegularFile (earlier_line ++ [10]) ]};
     calls := [] |}.

(** The library as released: [PortNum] is defined in [portnums_pb2], so
    the lookup on [mesh_pb2] raises. *)
Definition library_runtime : Runtime :=
  {| py_str := str_value;
     PortNum_TEXT_MESSAGE_APP :=
       inl (lit "module 'meshtastic.mesh_pb2' has no attribute 'PortNum'");
     SerialInterface := fun path =>
       if decide (path = lit "/dev/ttyACM0") then inr bench_device
       else inl (lit "could not open port");
     codec_error_text := fun _ => lit "'utf-8' codec can't decode bytes" |}.

(** Packets as the library delivers them, the portnum by its name: a text
    message, a position report, a text message without sender and one
    whose payload is the lone byte [0xff]. *)
Definition delivered_text_packet : pyval :=
  PyDict [ (lit "from", PyInt 42);
           (lit "decoded",
            PyDict [(lit "portnum", PyStr (lit "TEXT_MESSAGE_APP"));
                    (lit "payload", PyBytes ["h"%byte; "i"%byte])]) ].

Definition delivered_position_packet : pyval :=
  PyDict [ (lit "from", PyInt 42);
           (lit "decoded",
            PyDict [(lit "portnum", PyStr (lit "POSITION_APP"));
                    (lit "payload", PyBytes [Byte.x0d; Byte.x01])]) ].

Definition delivered_anonymous_packet : pyval :=
  PyDict [ (lit "decoded",
            PyDict [(lit "portnum", PyStr (lit "TEXT_MESSAGE_APP"));
                    (lit "payload", PyBytes ["h"%byte; "i"%byte])]) ].



Definition untyped_packet : pyval :=
  PyDict [ (lit "from", PyInt 42);
           (lit "decoded", PyDict [(lit "payload", PyBytes ["h"%byte; "i"%byte])]) ].

(** ** Vocabulary of the properties *)

(** The input holds nothing but whitespace (the empty input included). *)
Definition only_whitespace (t : pystr) : bool := forallb isspace t.

(** The input neither starts nor ends with whitespace. *)
Definition unpadded (t : pystr) : bool :=
  match t with
  | [] => true
  | c :: _ => negb (isspace c) && negb (isspace (List.last t c))
  end.

(** The value a mapping holds under a key. *)
Definition field (v : pyval) (k : string) : option pyval :=
  match v with
  | PyDict items => dict_lookup (lit k) items
  | _ => None
  end.

(** A mapping without the key. *)
Definition lacks_key (v : pyval) (k : string) : bool :=
  match v with
  | PyDict items =>
    match dict_lookup (lit k) items with Some _ => false | None => true end
  | _ => false
  end.

(** The text a path holds on the disk; empty when there is no file. *)
Definition file_content (d : gmap string fnode) (path : string) : pystr :=
  match d !! path with
  | Some (RegularFile c) => c
  | _ => []
  end.

Fixpoint starts_with (prefix t : pystr) : bool :=
  match prefix, t with
  | [], _ => true
  | p :: prefix', c :: t' => (p =? c) && starts_with prefix' t'
  | _ :: _, [] => false
  end.

(** Every regular file still holds what it held, possibly with more after
    it. *)
Definition append_only (d d' : gmap string fnode) : Prop :=
  forall path c, d !! path = Some (RegularFile c) ->
    exists more, d' !! path = Some (RegularFile (c ++ more)).

(** The state after [log_message]: the line is on the terminal and in the
    visible log. *)
Definition logged (message : pystr) (s : State) : State :=
  set_message_list (message_list s ++ [message])
    (set_stdout (stdout s ++ [message]) s).

(** The line each handler of [on_message_received] writes for an
    exception. *)
Definition failure_line (e : exn) : pystr :=
  match e with
  | KeyError _ => lit "Missing key in packet: " ++ str_exn e
  | UnicodeDecodeError _ => lit "Error decoding message payload."
  | _ => lit "Error processing message: " ++ str_exn e
  end.

(** An operation relates every state to the state it leaves by [R], whether
    it returns or raises. *)
Definition keeps {A} (R : State -> State -> Prop) (m : M A) : Prop :=
  forall s, R s (snd (m s)).

Definition same_disk (s s' : State) : Prop := disk s' = disk s.

Definition disk_grows (s s' : State) : Prop := append_only (disk s) (disk s').

Section PacketShapes.
Context {rt : Runtime}.

(** The first line the callback logs for a packet. *)
Definition raw_line (packet : pyval) : pystr :=
  lit "Raw packet received: " ++ py_str packet.

(** The outcome of the comparison with the text marker; [None] when
    looking the marker up raises. *)
Definition is_TEXT_MESSAGE_APP (v : pyval) : option bool :=
  match PortNum_TEXT_MESSAGE_APP with
  | inl _ => None
  | inr test => Some (test v)
  end.


(** The operations of the controller. *)
Inductive operation : Type :=
| ConnectToDevice
| OnMessageReceived (packet : pyval)
| LoadMessagesFromFile
| OutputNodes
| SendMessage
| LogMessage (message : pystr)
| CloseEvent.

Definition run (op : operation) : M unit :=
  match op with
  | ConnectToDevice => connect_to_device
  | OnMessageReceived packet => on_message_received packet
  | LoadMessagesFromFile => load_messages_from_file
  | OutputNodes => output_nodes
  | SendMessage => send_message
  | LogMessage message => log_message message
  | CloseEvent => closeEvent
  end.

End PacketShapes.

(** ** Vocabulary of the further properties *)

(** The handle [connect_to_device] keeps: the one the constructor gave, with
    the callback registered. *)
Definition registered (iface : Interface) : Interface :=
  {| nodes := nodes iface; onReceive := true;
     sendText_raises := sendText_raises iface;
     close_raises := close_raises iface |}.

(** The value [node.get("user", {}).get("longName", "Unknown Node")] when
    both receivers are mappings; [None] when one is not (the call
    raises). *)
Definition long_name (node : pyval) : option pyval :=
  match node with
  | PyDict items =>
    match from_option id (PyDict []) (dict_lookup (lit "user") items) with
    | PyDict uitems =>
      Some (from_option id (PyStr (lit "Unknown Node"))
              (dict_lookup (lit "longName") uitems))
    | _ => None
    end
  | _ => None
  end.

(** Every entry of a node table can be named. *)
Definition nameable (items : list (pystr * pyval)) : bool :=
  forallb (fun '(_, node) => match long_name node with Some _ => true | None => false end)
    items.

(** What one text shows and the other prints: the terminal and the visible
    log grew by the same lines. *)
Definition mirrored (s s' : State) : Prop :=
  exists new, stdout s' = stdout s ++ new /\ message_list s' = message_list s ++ new.

Definition same_interface (s s' : State) : Prop := interface s' = interface s.
Definition same_calls (s s' : State) : Prop := calls s' = calls s.
Definition same_node_list (s s' : State) : Prop := node_list s' = node_list s.
Definition same_message_input (s s' : State) : Prop := message_input s' = message_input s.

(** The visible log kept what it showed. *)
Definition log_grows (s s' : State) : Prop :=
  exists new, message_list s' = message_list s ++ new.

Section NodeShapes.
Context {rt : Runtime}.

(** The item [output_nodes] shows for an entry of the node table. *)
Definition node_item (entry : pystr * pyval) : pystr :=
  match long_name (snd entry) with
  | Some name => py_str (PyStr (fst entry)) ++ lit ": " ++ py_str name
  | None => []
  end.

End NodeShapes.

(** The entries of the node table of [bench_device]. *)
Definition bench_table : list (pystr * pyval) :=
  [ (lit "!a1b2c3d4",
     PyDict [(lit "num", PyInt 2712847316);
             (lit "user", PyDict [(lit "longName", PyStr (lit "Base"))])]);
    (lit "!0badc0de", PyDict [(lit "num", PyInt 195936478)]) ].

(** A device whose node table is [None], and a runtime whose serial port
    gives it. *)
Definition fresh_device : Interface :=
  {| nodes := PyNone;
     onReceive := false;
     sendText_raises := fun _ => None;
     close_raises := None |}.

Definition fresh_runtime : Runtime :=
  {| py_str := str_value;
     PortNum_TEXT_MESSAGE_APP :=
       inr (fun v => match v with PyInt 1 => true | _ => false end);
     SerialInterface := fun _ => inr fresh_device;
     codec_error_text := fun _ => lit "'utf-8' codec can't decode bytes" |}.

(** A runtime without serial port. *)
Definition no_port_runtime : Runtime :=
  {| py_str := str_value;
     PortNum_TEXT_MESSAGE_APP :=
       inr (fun v => match v with PyInt 1 => true | _ => false end);
     SerialInterface := fun _ =>
       inl (lit "[Errno 2] could not open port /dev/ttyACM0");
     codec_error_text := fun _ => lit "'utf-8' codec can't decode bytes" |}.

(** A device whose [close] raises. *)
Definition stuck_device : Interface :=
  {| nodes := nodes bench_device;
     onReceive := true;
     sendText_raises := fun _ => None;
     close_raises := Some (lit "port is not open") |}.

(** The window with a directory where the log file should be. *)
Definition blocked_state : State :=
  set_disk {[ "messages.log" := Directory ]} initial_state.

(** * Properties *)

(** ** The Python operations on small inputs *)

Example strip_inner_space_kept :
  strip (lit "  hello world ") = lit "hello world".
Proof. reflexivity. Qed.

Example strip_no_break_space : strip [0xA0; 0x68; 0x3000] = [0x68].
Proof. reflexivity. Qed.

Example decode_utf8_accepts :
  decode_utf8 [Byte.x68; Byte.xc3; Byte.xa9; Byte.xe2; Byte.x82; Byte.xac;
               Byte.xf0; Byte.x9f; Byte.x98; Byte.x80]
  = Some [0x68; 0xE9; 0x20AC; 0x1F600].
Proof. reflexivity. Qed.

Example decode_utf8_rejects :
  decode_utf8 [Byte.xff] = None
  /\ decode_utf8 [Byte.xc0; Byte.x80] = None
  /\ decode_utf8 [Byte.xed; Byte.xa0; Byte.x80] = None
  /\ decode_utf8 [Byte.xf4; Byte.x90; Byte.x80; Byte.x80] = None
  /\ decode_utf8 [Byte.xe2; Byte.x82] = None.
Proof. repeat split; reflexivity. Qed.

Example readlines_universal :
  readlines (lit "a" ++ [13; 10] ++ lit "b" ++ [10] ++ lit "c")
  = [lit "a" ++ [10]; lit "b" ++ [10]; lit "c"].
Proof. reflexivity. Qed.

Example connect_lists_nodes :
  node_list (final (connect_to_device (rt := bench_runtime)) initial_state)
  = [lit "Connected Nodes:"; lit "!a1b2c3d4: Base"; lit "!0badc0de: Unknown Node"].
Proof. reflexivity. Qed.

Example repr_of_packets :
  str_value garbled_packet
  = lit "{'from': 42, 'decoded': {'portnum': 1, 'payload': b'\xff'}}"
  /\ str_value (PyDict [(lit "it's", PyBytes (map byte_of_ascii
                                               (list_ascii_of_string "a'b")))])
     = [123; 34] ++ lit "it's" ++ [34] ++ lit ": b" ++ [34] ++ lit "a'b" ++ [34; 125].
Proof. split; reflexivity. Qed.

Example anonymous_packet_run :
  message_list (final (on_message_received (rt := bench_runtime) anonymous_packet)
                  initial_state)
  = [lit "Raw packet received: {'decoded': {'portnum': 1, 'payload': b'hi'}}";
     lit "Missing key in packet: 'from'"].
Proof. reflexivity. Qed.

Example garbled_packet_run :
  message_list (final (on_message_received (rt := bench_runtime) garbled_packet)
                  initial_state)
  = [lit "Raw packet received: {'from': 42, 'decoded': {'portnum': 1, 'payload': b'\xff'}}";
     lit "Error decoding message payload."].
Proof. reflexivity. Qed.

Example load_shows_log :
  message_list (final load_messages_from_file session_state) = [earlier_line].
Proof. reflexivity. Qed.

(** ** Whitespace and [strip] *)

Lemma lstrip_only_whitespace t : only_whitespace t = true -> lstrip t = [].
Proof.
  induction t as [|c t IH]; simpl; [reflexivity|].
  intros [Hc Ht]%andb_prop. rewrite Hc. auto.
Qed.

Lemma lstrip_nil_inv t : lstrip t = [] -> only_whitespace t = true.
Proof.
  induction t as [|c t IH]; simpl; [reflexivity|].
  destruct (isspace c); [auto | discriminate].
Qed.

Lemma lstrip_fixed c t : isspace c = false -> lstrip (c :: t) = c :: t.
Proof. intros Hc. simpl. now rewrite Hc. Qed.

Lemma only_whitespace_rev t : only_whitespace (rev t) = only_whitespace t.
Proof.
  unfold only_whitespace. induction t as [|c t IH]; simpl; [reflexivity|].
  rewrite forallb_app, IH. simpl. rewrite andb_true_r. apply andb_comm.
Qed.

Lemma only_whitespace_lstrip t :
  only_whitespace (lstrip t) = true -> only_whitespace t = true.
Proof.
  induction t as [|c t IH]; simpl; [reflexivity|].
  destruct (isspace c) eqn:Hc; simpl; [auto|].
  rewrite Hc. discriminate.
Qed.

Lemma strip_only_whitespace t : only_whitespace t = true -> strip t = [].
Proof.
  intros Ht. unfold strip, rstrip. now rewrite (lstrip_only_whitespace t Ht).
Qed.

Lemma strip_nil_inv t : strip t = [] -> only_whitespace t = true.
Proof.
  unfold strip, rstrip. intros Hs.
  apply only_whitespace_lstrip. rewrite <- only_whitespace_rev.
  apply lstrip_nil_inv.
  apply (f_equal (@rev N)) in Hs. now rewrite rev_involutive in Hs.
Qed.

Lemma strip_unpadded t : unpadded t = true -> strip t = t.
Proof.
  destruct t as [|c t]; [reflexivity|].
  unfold unpadded. intros [Hc Hl]%andb_prop.
  apply negb_true_iff in Hc. apply negb_true_iff in Hl.
  unfold strip, rstrip. rewrite (lstrip_fixed c t Hc).
  assert (Hne : c :: t <> []) by discriminate.
  pose proof (app_removelast_last c Hne) as E.
  remember (List.last (c :: t) c) as l eqn:El.
  remember (removelast (c :: t)) as r eqn:Er.
  rewrite E, rev_app_distr.
  change (rev [l] ++ rev r) with (l :: rev r).
  rewrite (lstrip_fixed _ _ Hl).
  change (l :: rev r) with (rev [l] ++ rev r).
  now rewrite <- rev_app_distr, rev_involutive.
Qed.

(** ** Running the monad *)

(** A [try] whose handlers take every exception and do not raise themselves
    does not raise. *)
Lemma try_except_total body handler s :
  (forall e, exists h, handler e = Some h /\ forall s', fst (h s') = Ok tt) ->
  result (try_except body handler) s = Ok tt.
Proof.
  intros Hh. unfold result, try_except.
  destruct (body s) as [[[]|e] s']; [reflexivity|].
  destruct (Hh e) as (h & -> & Hok). apply Hok.
Qed.

(** ** Relations every step of an operation keeps *)

Section Frame.
Variable R : State -> State -> Prop.
Hypothesis R_refl : forall s, R s s.
Hypothesis R_trans : forall s1 s2 s3, R s1 s2 -> R s2 s3 -> R s1 s3.

Lemma keeps_pure {A} (m : M A) : (forall s, snd (m s) = s) -> keeps R m.
Proof. intros Hm s. rewrite Hm. apply R_refl. Qed.

Lemma keeps_ret {A} (a : A) : keeps R (ret a).
Proof. now apply keeps_pure. Qed.

Lemma keeps_raise {A} e : keeps R (@raise A e).
Proof. now apply keeps_pure. Qed.

Lemma keeps_get {A} (f : State -> A) : keeps R (get f).
Proof. now apply keeps_pure. Qed.

Lemma keeps_modify f : (forall s, R s (f s)) -> keeps R (modify f).
Proof. intros Hf s. apply Hf. Qed.

Lemma keeps_bind {A B} (m : M A) (k : A -> M B) :
  keeps R m -> (forall a, keeps R (k a)) -> keeps R (bind m k).
Proof.
  intros Hm Hk s. unfold bind. specialize (Hm s).
  destruct (m s) as [[a|e] s']; simpl in *; [|exact Hm].
  eapply R_trans; [exact Hm | apply Hk].
Qed.

Lemma keeps_try_except body handler :
  keeps R body -> (forall e h, handler e = Some h -> keeps R h) ->
  keeps R (try_except body handler).
Proof.
  intros Hb Hh s. unfold try_except. specialize (Hb s).
  destruct (body s) as [[[]|e] s']; simpl in *; [exact Hb|].
  destruct (handler e) as [h|] eqn:E; simpl; [|exact Hb].
  eapply R_trans; [exact Hb | now apply (Hh e h)].
Qed.

Lemma keeps_for_each {A} (xs : list A) body :
  (forall x, keeps R (body x)) -> keeps R (for_each xs body).
Proof.
  intros Hb. induction xs as [|x xs IH]; simpl.
  - apply keeps_ret.
  - apply keeps_bind; [apply Hb | intros _; exact IH].
Qed.

Lemma keeps_subscript v k : keeps R (subscript v k).
Proof.
  apply keeps_pure. intros s.
  destruct v; simpl; try reflexivity. now destruct (dict_lookup (lit k) items).
Qed.

Lemma keeps_dict_get v k d : keeps R (dict_get v k d).
Proof. apply keeps_pure. intros s. now destruct v. Qed.

Lemma keeps_dict_items v : keeps R (dict_items v).
Proof. apply keeps_pure. intros s. now destruct v. Qed.

End Frame.

Lemma same_disk_refl s : same_disk s s.
Proof. reflexivity. Qed.

Lemma same_disk_trans s1 s2 s3 : same_disk s1 s2 -> same_disk s2 s3 -> same_disk s1 s3.
Proof. unfold same_disk. congruence. Qed.

Lemma disk_grows_refl s : disk_grows s s.
Proof. intros path c Hc. exists []. now rewrite app_nil_r. Qed.

Lemma disk_grows_trans s1 s2 s3 : disk_grows s1 s2 -> disk_grows s2 s3 -> disk_grows s1 s3.
Proof.
  intros H12 H23 path c Hc.
  destruct (H12 path c Hc) as [m1 H1]. destruct (H23 path _ H1) as [m2 H2].
  exists (m1 ++ m2). now rewrite app_assoc.
Qed.

Lemma same_disk_grows {A} (m : M A) : keeps same_disk m -> keeps disk_grows m.
Proof. intros Hm s. unfold disk_grows. rewrite (Hm s). apply disk_grows_refl. Qed.

Section Methods.
Context {rt : Runtime}.

Lemma log_message_run message s :
  log_message message s = (Ok tt, logged message s).
Proof. reflexivity. Qed.

(** ** Sending *)

Lemma send_message_connected s iface :
  interface s = Some iface ->
  send_message s
  = match strip (message_input s) with
    | _ :: _ =>
      (sendText iface (strip (message_input s));;
       log_message (lit "Sent message: " ++ strip (message_input s));;
       modify (set_message_input [])) s
    | [] => log_message (lit "Cannot send an empty message.") s
    end.
Proof.
  intros Hi. unfold send_message, bind at 1, get. rewrite Hi.
  unfold bind at 1. now destruct (strip (message_input s)).
Qed.

Lemma send_message_calls s iface :
  interface s = Some iface -> strip (message_input s) <> [] ->
  calls (final send_message s)
  = calls s ++ [CallSendText (strip (message_input s))].
Proof.
  intros Hi Hne. unfold final. rewrite (send_message_connected s iface Hi).
  destruct (strip (message_input s)) as [|c m] eqn:Em; [congruence|].
  unfold sendText, bind, modify.
  now destruct (sendText_raises iface (c :: m)).
Qed.

Lemma send_message_refusal s iface :
  interface s = Some iface -> strip (message_input s) = [] ->
  send_message s = log_message (lit "Cannot send an empty message.") s.
Proof.
  intros Hi Hs. rewrite (send_message_connected s iface Hi). now rewrite Hs.
Qed.

(** C3: while connected, an input that is empty or all whitespace makes
    [send_message] log the refusal line and return without any call of
    [sendText] (the calls on the device handle are what they were). *)
Theorem send_message_refuses_whitespace s iface :
  interface s = Some iface ->
  only_whitespace (message_input s) = true ->
  result send_message s = Ok tt
  /\ calls (final send_message s) = calls s
  /\ message_list (final send_message s)
     = message_list s ++ [lit "Cannot send an empty message."]
  /\ message_input (final send_message s) = message_input s.
Proof.
  intros Hi Hw. unfold result, final.
  rewrite (send_message_refusal s iface Hi (strip_only_whitespace _ Hw)).
  rewrite log_message_run. now simpl.
Qed.

(** C4, as the code has it: while connected, [send_message] hands
    [sendText] the input with its leading and trailing whitespace removed,
    which is the input itself when it has none; it refuses exactly the
    inputs that are empty or all whitespace. *)
Theorem send_message_forwards_stripped s iface :
  interface s = Some iface ->
  (only_whitespace (message_input s) = false ->
   calls (final send_message s)
   = calls s ++ [CallSendText (strip (message_input s))])
  /\ (only_whitespace (message_input s) = false ->
      unpadded (message_input s) = true ->
      calls (final send_message s)
      = calls s ++ [CallSendText (message_input s)])
  /\ (only_whitespace (message_input s) = true ->
      calls (final send_message s) = calls s
      /\ message_list (final send_message s)
         = message_list s ++ [lit "Cannot send an empty message."]).
Proof.
  intros Hi.
  assert (Hsend : only_whitespace (message_input s) = false ->
                  calls (final send_message s)
                  = calls s ++ [CallSendText (strip (message_input s))]).
  { intros Hw. apply (send_message_calls s iface Hi).
    intros Hs. apply strip_nil_inv in Hs. congruence. }
  split; [exact Hsend|]. split.
  - intros Hw Hu. rewrite (Hsend Hw). now rewrite (strip_unpadded _ Hu).
  - intros Hw. unfold final.
    rewrite (send_message_refusal s iface Hi (strip_only_whitespace _ Hw)).
    rewrite log_message_run. now simpl.
Qed.

(** An exception of [sendText] leaves [send_message] as it came: nothing is
    logged and the input box keeps its text. *)
Lemma send_message_sendText_raises s iface text :
  interface s = Some iface ->
  strip (message_input s) <> [] ->
  sendText_raises iface (strip (message_input s)) = Some text ->
  result send_message s = Raise (OtherException text)
  /\ message_list (final send_message s) = message_list s
  /\ message_input (final send_message s) = message_input s.
Proof.
  intros Hi Hne Hr. unfold result, final.
  rewrite (send_message_connected s iface Hi).
  destruct (strip (message_input s)) as [|c m] eqn:Em; [congruence|].
  unfold sendText, bind, modify. rewrite Hr. now simpl.
Qed.

(** ** Receiving *)

Lemma subscript_field v k x : field v k = Some x -> subscript v k = ret x.
Proof. destruct v; simpl; try discriminate. now intros ->. Qed.

Lemma subscript_lacks v k :
  lacks_key v k = true -> subscript v k = raise (KeyError (lit k)).
Proof.
  destruct v; simpl; try discriminate.
  now destruct (dict_lookup (lit k) items).
Qed.

Lemma decode_bytes b message :
  decode_utf8 b = Some message -> decode (PyBytes b) = ret message.
Proof. simpl. now intros ->. Qed.

Lemma decode_bad_bytes b :
  decode_utf8 b = None ->
  decode (PyBytes b) = raise (UnicodeDecodeError (codec_error_text b)).
Proof. simpl. now intros ->. Qed.

Lemma decode_not_bytes v :
  (forall b, v <> PyBytes b) -> decode v = raise (attribute_error v "decode").
Proof. destruct v; simpl; try reflexivity. intros Hv. now destruct (Hv b). Qed.

(** Under a mapping a key is either held or lacking. *)
Lemma field_or_lacks v k x k' :
  field v k = Some x ->
  (exists y, field v k' = Some y) \/ lacks_key v k' = true.
Proof.
  destruct v; simpl; try discriminate. intros _.
  destruct (dict_lookup (lit k') items); eauto.
Qed.

Lemma lacks_key_field v k : lacks_key v k = true -> field v k = None.
Proof.
  destruct v; simpl; try discriminate.
  now destruct (dict_lookup (lit k) items).
Qed.

Lemma equals_marker v b :
  is_TEXT_MESSAGE_APP v = Some b -> equals_TEXT_MESSAGE_APP v = ret b.
Proof.
  unfold is_TEXT_MESSAGE_APP, equals_TEXT_MESSAGE_APP.
  destruct PortNum_TEXT_MESSAGE_APP; [discriminate|]. now intros [= <-].
Qed.

Lemma equals_marker_raises v text :
  PortNum_TEXT_MESSAGE_APP = inl text ->
  equals_TEXT_MESSAGE_APP v = raise (OtherException text).
Proof. unfold equals_TEXT_MESSAGE_APP. now intros ->. Qed.

Ltac py_eval :=
  cbv beta iota delta [try_except bind ret raise get modify].

Ltac py_step :=
  first
    [ rewrite log_message_run
    | erewrite subscript_field by eassumption
    | erewrite subscript_lacks by eassumption
    | erewrite decode_bytes by eassumption
    | erewrite decode_bad_bytes by eassumption
    | erewrite decode_not_bytes by eassumption
    | erewrite equals_marker by eassumption
    | erewrite equals_marker_raises by eassumption ];
  py_eval.

Ltac py_run := unfold on_message_received; py_eval; repeat py_step.



Lemma receive_without_payload packet decoded portnum s :
  field packet "decoded" = Some decoded ->
  field decoded "portnum" = Some portnum ->
  is_TEXT_MESSAGE_APP portnum = Some true ->
  lacks_key decoded "payload" = true ->
  on_message_received packet s
  = (Ok tt, logged (failure_line (KeyError (lit "payload"))) (logged (raw_line packet) s)).
Proof. intros Hd Hp Ht Hl. now py_run. Qed.

Lemma receive_payload_not_bytes packet decoded portnum payload s :
  field packet "decoded" = Some decoded ->
  field decoded "portnum" = Some portnum ->
  is_TEXT_MESSAGE_APP portnum = Some true ->
  field decoded "payload" = Some payload ->
  (forall b, payload <> PyBytes b) ->
  on_message_received packet s
  = (Ok tt, logged (failure_line (attribute_error payload "decode"))
              (logged (raw_line packet) s)).
Proof. intros Hd Hp Ht Hl Hb. now py_run. Qed.

Lemma receive_undecodable packet decoded portnum b s :
  field packet "decoded" = Some decoded ->
  field decoded "portnum" = Some portnum ->
  is_TEXT_MESSAGE_APP portnum = Some true ->
  field decoded "payload" = Some (PyBytes b) ->
  decode_utf8 b = None ->
  on_message_received packet s
  = (Ok tt, logged (lit "Error decoding message payload.") (logged (raw_line packet) s)).
Proof. intros Hd Hp Ht Hl Hb. now py_run. Qed.

Lemma receive_without_from packet decoded portnum b message s :
  field packet "decoded" = Some decoded ->
  field decoded "portnum" = Some portnum ->
  is_TEXT_MESSAGE_APP portnum = Some true ->
  field decoded "payload" = Some (PyBytes b) ->
  decode_utf8 b = Some message ->
  lacks_key packet "from" = true ->
  on_message_received packet s
  = (Ok tt, logged (failure_line (KeyError (lit "from"))) (logged (raw_line packet) s)).
Proof. intros Hd Hp Ht Hl Hb Hf. now py_run. Qed.

Lemma receive_non_text packet decoded portnum s :
  field packet "decoded" = Some decoded ->
  field decoded "portnum" = Some portnum ->
  is_TEXT_MESSAGE_APP portnum = Some false ->
  on_message_received packet s
  = (Ok tt, logged (lit "Received a non-text packet.") (logged (raw_line packet) s)).
Proof. intros Hd Hp Ht. now py_run. Qed.

Lemma receive_text packet decoded portnum b message sender s :
  field packet "decoded" = Some decoded ->
  field decoded "portnum" = Some portnum ->
  is_TEXT_MESSAGE_APP portnum = Some true ->
  field decoded "payload" = Some (PyBytes b) ->
  decode_utf8 b = Some message ->
  field packet "from" = Some sender ->
  disk s !! log_file <> Some Directory ->
  on_message_received packet s
  = (Ok tt,
     set_disk
       (<[log_file :=
            RegularFile
              (file_content (disk s) log_file
               ++ (lit "Message from " ++ py_str sender ++ lit ": " ++ message)
               ++ [10])]> (disk s))
       (logged (lit "Message from " ++ py_str sender ++ lit ": " ++ message)
          (logged (raw_line packet) s))).
Proof.
  intros Hd Hp Ht Hl Hb Hf Hdisk. py_run.
  unfold append_to_file, file_content. cbn [disk logged set_message_list set_stdout].
  destruct (disk s !! log_file) as [[c|]|] eqn:E; [| congruence |].
  - now rewrite <- app_assoc.
  - reflexivity.
Qed.

(** With a library whose [mesh_pb2] has no [PortNum], a packet that has a
    portnum gets no further than the comparison: the [AttributeError] goes
    to the last handler. *)
Lemma receive_marker_unavailable packet decoded portnum text s :
  field packet "decoded" = Some decoded ->
  field decoded "portnum" = Some portnum ->
  PortNum_TEXT_MESSAGE_APP = inl text ->
  on_message_received packet s
  = (Ok tt, logged (lit "Error processing message: " ++ text) (logged (raw_line packet) s)).
Proof. intros Hd Hp Ht. now py_run. Qed.


(** ** Loading, listing nodes, closing *)

Lemma load_without_file s :
  disk s !! log_file = None ->
  load_messages_from_file s
  = (Ok tt, logged (lit "No message log file found.") (set_message_list [] s)).
Proof.
  intros Hf. unfold load_messages_from_file, read_lines_of_file. py_eval.
  cbn [disk set_message_list]. now rewrite Hf.
Qed.

(** C6, as the code has it: when the log file does not exist,
    [load_messages_from_file] returns normally and leaves in the visible log
    the report line [No message log file found.] and nothing else: what was
    displayed before is gone and no message line is added.  The line goes
    to the terminal too, and the disk is as it was. *)
Theorem load_without_file_reports s :
  disk s !! log_file = None ->
  result load_messages_from_file s = Ok tt
  /\ message_list (final load_messages_from_file s)
     = [lit "No message log file found."]
  /\ stdout (final load_messages_from_file s)
     = stdout s ++ [lit "No message log file found."]
  /\ disk (final load_messages_from_file s) = disk s.
Proof.
  intros Hf. unfold result, final. now rewrite (load_without_file s Hf).
Qed.

(** C7: while no device handle is held, [output_nodes] returns normally,
    appends a line that starts with [Device not connected] to the visible
    log and leaves the items of the node list as they were. *)
Theorem output_nodes_disconnected s :
  interface s = None ->
  result output_nodes s = Ok tt
  /\ message_list (final output_nodes s)
     = message_list s ++ [lit "Device not connected. Please connect first."]
  /\ starts_with (lit "Device not connected")
       (lit "Device not connected. Please connect first.") = true
  /\ node_list (final output_nodes s) = node_list s.
Proof.
  intros Hi. unfold result, final, output_nodes. py_eval. now rewrite Hi.
Qed.

(** C9: [closeEvent] calls [close] on the device handle once when one is
    held, and makes no call at all when none is: the calls on device handles
    grow by exactly that. *)
Theorem closeEvent_closes_once s :
  calls (final closeEvent s)
  = calls s ++ match interface s with
               | Some _ => [CallClose]
               | None => []
               end.
Proof.
  unfold final, closeEvent, close. py_eval.
  destruct (interface s) as [iface|].
  - now destruct (close_raises iface).
  - simpl. now rewrite app_nil_r.
Qed.

Example closeEvent_connected :
  calls (final closeEvent session_state) = [CallClose].
Proof. reflexivity. Qed.

Example closeEvent_disconnected : calls (final closeEvent initial_state) = [].
Proof. reflexivity. Qed.

(** ** What the operations do to the disk *)

Lemma log_message_same_disk message : keeps same_disk (log_message message).
Proof. intros s. reflexivity. Qed.

Lemma output_nodes_same_disk : keeps same_disk output_nodes.
Proof.
  pose proof same_disk_refl as Hr. pose proof same_disk_trans as Ht.
  unfold output_nodes. apply keeps_bind; auto using keeps_get.
  intros [iface|]; [|apply log_message_same_disk].
  repeat (apply keeps_bind; auto using keeps_modify, keeps_dict_items; intros).
  apply keeps_for_each; auto. intros [node_id node].
  repeat (apply keeps_bind;
          auto using keeps_dict_get, keeps_modify, log_message_same_disk;
          intros).
Qed.

Lemma connect_to_device_same_disk : keeps same_disk connect_to_device.
Proof.
  pose proof same_disk_refl as Hr. pose proof same_disk_trans as Ht.
  unfold connect_to_device. apply keeps_try_except; auto.
  - apply keeps_bind; auto using log_message_same_disk. intros _.
    apply keeps_bind; auto.
    { unfold new_SerialInterface.
      destruct (SerialInterface _); auto using keeps_ret, keeps_raise. }
    intros iface.
    repeat (apply keeps_bind;
            auto using keeps_modify, output_nodes_same_disk, log_message_same_disk;
            intros).
  - intros e h [= <-]. apply log_message_same_disk.
Qed.

Lemma load_messages_from_file_same_disk : keeps same_disk load_messages_from_file.
Proof.
  pose proof same_disk_refl as Hr. pose proof same_disk_trans as Ht.
  unfold load_messages_from_file. apply keeps_try_except; auto.
  - apply keeps_bind; auto using keeps_modify. intros _.
    apply keeps_bind; auto.
    + apply keeps_pure; auto. intros s. unfold read_lines_of_file.
      now destruct (disk s !! log_file) as [[]|].
    + intros messages. apply keeps_for_each; auto.
  - intros e h. destruct e; intros [= <-]; apply log_message_same_disk.
Qed.

Lemma send_message_same_disk : keeps same_disk send_message.
Proof.
  pose proof same_disk_refl as Hr. pose proof same_disk_trans as Ht.
  unfold send_message. apply keeps_bind; auto using keeps_get.
  intros [iface|]; [|apply log_message_same_disk].
  apply keeps_bind; auto using keeps_get. intros text.
  destruct (strip text); [apply log_message_same_disk|].
  apply keeps_bind; auto.
  unfold sendText. apply keeps_bind; auto using keeps_modify. intros _.
  destruct (sendText_raises _ _); auto using keeps_ret, keeps_raise.
Qed.

Lemma closeEvent_same_disk : keeps same_disk closeEvent.
Proof.
  pose proof same_disk_refl as Hr. pose proof same_disk_trans as Ht.
  unfold closeEvent. apply keeps_bind; auto using keeps_get.
  intros [iface|]; apply keeps_bind; auto using keeps_ret.
  unfold close. apply keeps_bind; auto using keeps_modify. intros _.
  destruct (close_raises _); auto using keeps_ret, keeps_raise.
Qed.

Lemma append_to_file_grows path text : keeps disk_grows (append_to_file path text).
Proof.
  intros s p c Hc. unfold append_to_file.
  destruct (disk s !! path) as [[c0|]|] eqn:E; cbn [snd disk set_disk].
  - destruct (decide (path = p)) as [->|Hne].
    + rewrite lookup_insert_eq. exists text. congruence.
    + rewrite lookup_insert_ne by exact Hne. exists []. now rewrite app_nil_r.
  - exists []. now rewrite app_nil_r.
  - destruct (decide (path = p)) as [->|Hne]; [congruence|].
    rewrite lookup_insert_ne by exact Hne. exists []. now rewrite app_nil_r.
Qed.

Lemma keeps_decode R v : (forall s, R s s) -> keeps R (decode v).
Proof.
  intros Hr. apply keeps_pure; [exact Hr|]. intros s.
  destruct v as [| | |b|]; simpl; try reflexivity. now destruct (decode_utf8 b).
Qed.

Lemma on_message_received_grows packet : keeps disk_grows (on_message_received packet).
Proof.
  pose proof disk_grows_refl as Hr. pose proof disk_grows_trans as Ht.
  assert (Hlog : forall m, keeps disk_grows (log_message m))
    by (intros m; apply same_disk_grows, log_message_same_disk).
  unfold on_message_received. apply keeps_try_except; auto.
  - repeat (apply keeps_bind; auto using keeps_subscript; intros).
    { unfold equals_TEXT_MESSAGE_APP.
      destruct PortNum_TEXT_MESSAGE_APP; auto using keeps_ret, keeps_raise. }
    match goal with |- keeps _ (if ?b then _ else _) => destruct b end; auto.
    repeat (apply keeps_bind;
            auto using keeps_subscript, keeps_decode, append_to_file_grows;
            intros).
  - intros e h. destruct e; intros [= <-]; auto.
Qed.

(** C8: no operation of the controller truncates, rewrites or deletes what
    a file on the disk holds (the log file in particular): after the
    operation, returned or raised, the file holds what it held, possibly
    with more after it.  Every operation but the receive callback leaves
    the disk exactly as it was, [load_messages_from_file] among them. *)
Theorem log_file_append_only op s path c :
  disk s !! path = Some (RegularFile c) ->
  (exists more, disk (final (run op) s) !! path = Some (RegularFile (c ++ more)))
  /\ disk (final load_messages_from_file s) = disk s
  /\ ((forall packet, op <> OnMessageReceived packet) ->
      disk (final (run op) s) = disk s).
Proof.
  intros Hc.
  assert (Hsame : (forall packet, op <> OnMessageReceived packet) ->
                  disk (final (run op) s) = disk s).
  { intros Hop. unfold final. destruct op; cbn [run].
    - apply connect_to_device_same_disk.
    - now destruct (Hop packet).
    - apply load_messages_from_file_same_disk.
    - apply output_nodes_same_disk.
    - apply send_message_same_disk.
    - apply log_message_same_disk.
    - apply closeEvent_same_disk. }
  split; [|split; [apply load_messages_from_file_same_disk | exact Hsame]].
  destruct op;
    try (rewrite Hsame by discriminate; exists []; now rewrite app_nil_r).
  apply (on_message_received_grows packet s path c Hc).
Qed.

(** ** Which operations let an exception through *)

Lemma connect_to_device_never_raises s : result connect_to_device s = Ok tt.
Proof. apply try_except_total. intros e. eexists. split; [reflexivity|]. reflexivity. Qed.

Lemma on_message_received_never_raises packet s :
  result (on_message_received packet) s = Ok tt.
Proof.
  apply try_except_total. intros e.
  destruct e; eexists; (split; [reflexivity|]); reflexivity.
Qed.

Lemma load_messages_from_file_never_raises s :
  result load_messages_from_file s = Ok tt.
Proof.
  apply try_except_total. intros e.
  destruct e; eexists; (split; [reflexivity|]); reflexivity.
Qed.

End Methods.

(** ** The methods on the bench *)

(** C1: the text packet the library delivers is not displayed and not
    stored.  Looking up [mesh_pb2.PortNum] raises, so the callback logs the
    raw packet line and [Error processing message: ...], no
    [Message from ...] line, and the log file is not created. *)
Theorem text_packet_never_displayed :
  result (on_message_received (rt := library_runtime) delivered_text_packet) initial_state
  = Ok tt
  /\ message_list
       (final (on_message_received (rt := library_runtime) delivered_text_packet)
          initial_state)
     = [lit "Raw packet received: {'from': 42, 'decoded': {'portnum': 'TEXT_MESSAGE_APP', 'payload': b'hi'}}";
        lit "Error processing message: module 'meshtastic.mesh_pb2' has no attribute 'PortNum'"]
  /\ disk (final (on_message_received (rt := library_runtime) delivered_text_packet)
             initial_state) !! log_file
     = None.
Proof. repeat split; reflexivity. Qed.

(** C2: with the radio link down, [send_message] lets the exception of
    [sendText] through to its caller; nothing is logged and the input stays
    in the box. *)
Theorem send_message_lets_exception_through :
  result send_message (connected_state unplugged_device "hi")
  = Raise (OtherException (lit "write failed: device disconnected"))
  /\ message_list (final send_message
                     (connected_state unplugged_device "hi")) = []
  /\ calls (final send_message
              (connected_state unplugged_device "hi")) = [CallSendText (lit "hi")].
Proof. repeat split; reflexivity. Qed.

(** C3 at an input of three spaces. *)
Lemma send_message_refuses_whitespace_on_bench :
  result send_message (connected_state bench_device "   ") = Ok tt
  /\ calls (final send_message (connected_state bench_device "   "))
     = calls (connected_state bench_device "   ")
  /\ message_list (final send_message
                     (connected_state bench_device "   "))
     = message_list (connected_state bench_device "   ")
       ++ [lit "Cannot send an empty message."]
  /\ message_input (final send_message
                      (connected_state bench_device "   "))
     = message_input (connected_state bench_device "   ").
Proof.
  apply (send_message_refuses_whitespace
           (connected_state bench_device "   ") bench_device); reflexivity.
Defined.

(** C4 as stated fails: the input [ hi ] is not empty, and what [sendText]
    receives is [hi], not the input; the input of one space is not empty
    either, and it is refused. *)
Lemma send_message_strips_input :
  message_input (connected_state bench_device " hi ") <> []
  /\ calls (final send_message (connected_state bench_device " hi "))
     = [CallSendText (lit "hi")]
  /\ calls (final send_message (connected_state bench_device " hi "))
     <> calls (connected_state bench_device " hi ")
        ++ [CallSendText (message_input (connected_state bench_device " hi "))]
  /\ message_input (connected_state bench_device " ") <> []
  /\ calls (final send_message (connected_state bench_device " "))
     = calls (connected_state bench_device " ").
Proof. repeat split; try reflexivity; vm_compute; discriminate. Qed.

(** C4 as amended, at the input [ hi ]. *)
Lemma send_message_forwards_stripped_on_bench :
  only_whitespace (message_input (connected_state bench_device " hi ")) = false
  /\ calls (final send_message (connected_state bench_device " hi "))
     = calls (connected_state bench_device " hi ")
       ++ [CallSendText (strip (message_input (connected_state bench_device " hi ")))].
Proof.
  split; [reflexivity|].
  apply (proj1 (send_message_forwards_stripped
                  (connected_state bench_device " hi ") bench_device eq_refl)).
  reflexivity.
Defined.



(** C6 as stated fails: without a log file the visible log is not empty
    after loading, it holds the report line. *)
Lemma load_without_file_leaves_report :
  disk initial_state !! log_file = None
  /\ message_list (final load_messages_from_file
                     (logged earlier_line initial_state))
     = [lit "No message log file found."]
  /\ message_list (final load_messages_from_file
                     (logged earlier_line initial_state))
     <> [].
Proof.
  split; [apply lookup_empty|].
  split; [reflexivity | vm_compute; discriminate].
Qed.

(** C6 as amended, with one line on display before loading. *)
Lemma load_without_file_reports_on_bench :
  result load_messages_from_file (logged earlier_line initial_state)
  = Ok tt
  /\ message_list (final load_messages_from_file
                     (logged earlier_line initial_state))
     = [lit "No message log file found."]
  /\ stdout (final load_messages_from_file
               (logged earlier_line initial_state))
     = stdout (logged earlier_line initial_state) ++ [lit "No message log file found."]
  /\ disk (final load_messages_from_file
             (logged earlier_line initial_state))
     = disk (logged earlier_line initial_state).
Proof.
  apply (load_without_file_reports (logged earlier_line initial_state)).
  apply lookup_empty.
Defined.

(** C7 from the window as it starts. *)
Lemma output_nodes_disconnected_on_bench :
  result (output_nodes (rt := bench_runtime)) initial_state = Ok tt
  /\ message_list (final (output_nodes (rt := bench_runtime)) initial_state)
     = message_list initial_state ++ [lit "Device not connected. Please connect first."]
  /\ starts_with (lit "Device not connected")
       (lit "Device not connected. Please connect first.") = true
  /\ node_list (final (output_nodes (rt := bench_runtime)) initial_state)
     = node_list initial_state.
Proof.
  apply (output_nodes_disconnected (rt := bench_runtime) initial_state). reflexivity.
Defined.

(** C8 at the receive callback, on a log file that holds one message. *)
Lemma log_file_append_only_on_bench :
  (exists more,
     disk (final (run (rt := bench_runtime) (OnMessageReceived text_packet)) session_state)
       !! log_file
     = Some (RegularFile ((earlier_line ++ [10]) ++ more)))
  /\ disk (final load_messages_from_file session_state)
     = disk session_state
  /\ ((forall packet, OnMessageReceived text_packet <> OnMessageReceived packet) ->
      disk (final (run (rt := bench_runtime) (OnMessageReceived text_packet)) session_state)
      = disk session_state).
Proof.
  apply (log_file_append_only (rt := bench_runtime) (OnMessageReceived text_packet)
           session_state log_file (earlier_line ++ [10])).
  apply lookup_singleton_eq.
Defined.

(** C10: the position report the library delivers is not reported as a
    non-text packet.  Looking up [mesh_pb2.PortNum] raises before the
    comparison, so the line after the raw packet line is
    [Error processing message: ...]; the disk is as it was. *)
Theorem non_text_packet_never_reported :
  result (on_message_received (rt := library_runtime) delivered_position_packet)
    session_state
  = Ok tt
  /\ message_list
       (final (on_message_received (rt := library_runtime) delivered_position_packet)
          session_state)
     = message_list session_state
       ++ [lit "Raw packet received: {'from': 42, 'decoded': {'portnum': 'POSITION_APP', 'payload': b'\r\x01'}}";
           lit "Error processing message: module 'meshtastic.mesh_pb2' has no attribute 'PortNum'"]
  /\ disk (final (on_message_received (rt := library_runtime) delivered_position_packet)
             session_state)
     = disk session_state.
Proof. repeat split; reflexivity. Qed.

(** * Further properties *)

(** ** Which steps an operation is made of *)

Section Writers.
Context {rt : Runtime}.
Variable R : State -> State -> Prop.
Hypothesis R_refl : forall s, R s s.
Hypothesis R_trans : forall s1 s2 s3, R s1 s2 -> R s2 s3 -> R s1 s3.
Hypothesis R_log : forall message, keeps R (log_message message).

Lemma equals_TEXT_MESSAGE_APP_keeps v : keeps R (equals_TEXT_MESSAGE_APP v).
Proof.
  unfold equals_TEXT_MESSAGE_APP.
  destruct PortNum_TEXT_MESSAGE_APP; [apply keeps_raise | apply keeps_ret]; exact R_refl.
Qed.

Ltac frame :=
  repeat first
    [ apply R_log
    | apply equals_TEXT_MESSAGE_APP_keeps
    | apply keeps_ret; exact R_refl
    | apply keeps_raise; exact R_refl
    | apply keeps_get; exact R_refl
    | apply keeps_subscript; exact R_refl
    | apply keeps_dict_get; exact R_refl
    | apply keeps_dict_items; exact R_refl
    | apply keeps_decode; exact R_refl
    | apply keeps_modify; solve [auto]
    | solve [auto]
    | apply keeps_for_each; [exact R_refl | exact R_trans | intros ?]
    | apply keeps_bind; [exact R_trans | | intros ?]
    | match goal with
      | |- keeps _ (match ?x with _ => _ end) => destruct x
      | |- keeps _ (if ?x then _ else _) => destruct x
      | |- keeps _ (let '(_, _) := ?x in _) => destruct x
      end ].

Lemma output_nodes_keeps :
  (forall l s, R s (set_node_list l s)) -> keeps R output_nodes.
Proof. intros Hn. unfold output_nodes, node_list_addItem. frame. Qed.

Lemma connect_to_device_keeps :
  (forall l s, R s (set_node_list l s)) ->
  (forall i s, R s (set_interface i s)) ->
  keeps R connect_to_device.
Proof.
  intros Hn Hi. pose proof (output_nodes_keeps Hn) as Ho.
  unfold connect_to_device, new_SerialInterface.
  apply keeps_try_except; [exact R_trans | frame | intros e h [= <-]; frame].
Qed.

Lemma on_message_received_keeps packet :
  (forall text, keeps R (append_to_file log_file text)) ->
  keeps R (on_message_received packet).
Proof.
  intros Hf. unfold on_message_received.
  apply keeps_try_except; [exact R_trans | frame |].
  intros e h. destruct e; intros [= <-]; frame.
Qed.

Lemma send_message_keeps :
  (forall l s, R s (set_calls l s)) ->
  (forall t s, R s (set_message_input t s)) ->
  keeps R send_message.
Proof. intros Hc Hi. unfold send_message, sendText. frame. Qed.

Lemma closeEvent_keeps :
  (forall l s, R s (set_calls l s)) -> keeps R closeEvent.
Proof. intros Hc. unfold closeEvent, close. frame. Qed.

Lemma read_lines_of_file_keeps path : keeps R (read_lines_of_file path).
Proof.
  apply keeps_pure; [exact R_refl|]. intros s. unfold read_lines_of_file.
  now destruct (disk s !! path) as [[]|].
Qed.

Lemma load_messages_from_file_keeps :
  (forall l s, R s (set_message_list l s)) -> keeps R load_messages_from_file.
Proof.
  intros Hm. pose proof read_lines_of_file_keeps as Hr.
  unfold load_messages_from_file, message_list_append.
  apply keeps_try_except; [exact R_trans | frame |].
  intros e h. destruct e; intros [= <-]; frame.
Qed.

End Writers.

Lemma mirrored_refl s : mirrored s s.
Proof. exists []. now rewrite !app_nil_r. Qed.

Lemma mirrored_trans s1 s2 s3 : mirrored s1 s2 -> mirrored s2 s3 -> mirrored s1 s3.
Proof.
  intros (n1 & Ho1 & Hm1) (n2 & Ho2 & Hm2). exists (n1 ++ n2).
  rewrite Ho2, Ho1, Hm2, Hm1. now rewrite !app_assoc.
Qed.

Lemma mirrored_same s s' :
  stdout s' = stdout s -> message_list s' = message_list s -> mirrored s s'.
Proof. intros Ho Hm. exists []. now rewrite Ho, Hm, !app_nil_r. Qed.

Lemma log_message_mirrored message : keeps mirrored (log_message message).
Proof. intros s. now exists [message]. Qed.

Lemma same_interface_trans s1 s2 s3 :
  same_interface s1 s2 -> same_interface s2 s3 -> same_interface s1 s3.
Proof. unfold same_interface. congruence. Qed.

Lemma same_calls_trans s1 s2 s3 : same_calls s1 s2 -> same_calls s2 s3 -> same_calls s1 s3.
Proof. unfold same_calls. congruence. Qed.

Lemma same_node_list_trans s1 s2 s3 :
  same_node_list s1 s2 -> same_node_list s2 s3 -> same_node_list s1 s3.
Proof. unfold same_node_list. congruence. Qed.

Lemma same_message_input_trans s1 s2 s3 :
  same_message_input s1 s2 -> same_message_input s2 s3 -> same_message_input s1 s3.
Proof. unfold same_message_input. congruence. Qed.

Lemma append_to_file_touches_disk_only path text s :
  interface (snd (append_to_file path text s)) = interface s
  /\ calls (snd (append_to_file path text s)) = calls s
  /\ node_list (snd (append_to_file path text s)) = node_list s
  /\ message_input (snd (append_to_file path text s)) = message_input s
  /\ stdout (snd (append_to_file path text s)) = stdout s
  /\ message_list (snd (append_to_file path text s)) = message_list s.
Proof. unfold append_to_file. now destruct (disk s !! path) as [[]|]. Qed.

Section Frames.
Context {rt : Runtime}.

(** X1: each attribute has its writers.  The device handle is replaced by
    [connect_to_device] only ([closeEvent] keeps it); calls on the device
    are made by [send_message] and [closeEvent] only; the input box is
    changed by [send_message] only; the node list by [connect_to_device]
    and [output_nodes] only.  This holds whether the operation returns or
    raises. *)
Theorem each_attribute_has_its_writers op s :
  (op <> ConnectToDevice -> interface (final (run op) s) = interface s)
  /\ (op <> SendMessage -> op <> CloseEvent -> calls (final (run op) s) = calls s)
  /\ (op <> SendMessage -> message_input (final (run op) s) = message_input s)
  /\ (op <> ConnectToDevice -> op <> OutputNodes ->
      node_list (final (run op) s) = node_list s).
Proof.
  unfold final. repeat split.
  - intros Hc.
    assert (H : keeps same_interface (run op)); [|exact (H s)].
    destruct op; cbn [run]; try congruence;
      [ apply on_message_received_keeps
      | apply load_messages_from_file_keeps
      | apply output_nodes_keeps
      | apply send_message_keeps
      | idtac
      | apply closeEvent_keeps ];
      try exact same_interface_trans; try (intros ?; reflexivity); try (intros ? ?; reflexivity);
      try (intros ? ? ?; reflexivity);
      try (intros ? ?; apply append_to_file_touches_disk_only).
  - intros Hs Hc.
    assert (H : keeps same_calls (run op)); [|exact (H s)].
    destruct op; cbn [run]; try congruence;
      [ apply connect_to_device_keeps
      | apply on_message_received_keeps
      | apply load_messages_from_file_keeps
      | apply output_nodes_keeps
      | idtac ];
      try exact same_calls_trans; try (intros ?; reflexivity); try (intros ? ?; reflexivity);
      try (intros ? ? ?; reflexivity);
      try (intros ? ?; apply append_to_file_touches_disk_only).
  - intros Hs.
    assert (H : keeps same_message_input (run op)); [|exact (H s)].
    destruct op; cbn [run]; try congruence;
      [ apply connect_to_device_keeps
      | apply on_message_received_keeps
      | apply load_messages_from_file_keeps
      | apply output_nodes_keeps
      | idtac
      | apply closeEvent_keeps ];
      try exact same_message_input_trans; try (intros ?; reflexivity); try (intros ? ?; reflexivity);
      try (intros ? ? ?; reflexivity);
      try (intros ? ?; apply append_to_file_touches_disk_only).
  - intros Hc Ho.
    assert (H : keeps same_node_list (run op)); [|exact (H s)].
    destruct op; cbn [run]; try congruence;
      [ apply on_message_received_keeps
      | apply load_messages_from_file_keeps
      | apply send_message_keeps
      | idtac
      | apply closeEvent_keeps ];
      try exact same_node_list_trans; try (intros ?; reflexivity); try (intros ? ?; reflexivity);
      try (intros ? ? ?; reflexivity);
      try (intros ? ?; apply append_to_file_touches_disk_only).
Qed.

(** X2: whatever an operation other than [load_messages_from_file] adds to
    the visible log it also prints on the terminal, the same lines in the
    same order, and it removes nothing from either. *)
Theorem terminal_mirrors_log op s :
  op <> LoadMessagesFromFile ->
  exists new,
    stdout (final (run op) s) = stdout s ++ new
    /\ message_list (final (run op) s) = message_list s ++ new.
Proof.
  intros Hl. assert (H : keeps mirrored (run op)); [|exact (H s)].
  destruct op; cbn [run]; try congruence;
    [ apply connect_to_device_keeps
    | apply on_message_received_keeps
    | apply output_nodes_keeps
    | apply send_message_keeps
    | apply log_message_mirrored
    | apply closeEvent_keeps ];
    try exact mirrored_refl; try exact mirrored_trans;
    try exact log_message_mirrored;
    try (intros; apply mirrored_same; reflexivity).
  intros text s0. apply mirrored_same; apply append_to_file_touches_disk_only.
Qed.

(** X3: [connect_to_device], [on_message_received] and
    [load_messages_from_file] return normally in every state, for every
    packet, device and disk: no exception leaves them. *)
Theorem guarded_operations_return packet s :
  result connect_to_device s = Ok tt
  /\ result (on_message_received packet) s = Ok tt
  /\ result load_messages_from_file s = Ok tt.
Proof.
  split; [|split].
  - apply connect_to_device_never_raises.
  - apply on_message_received_never_raises.
  - apply load_messages_from_file_never_raises.
Qed.

End Frames.

(** ** Stepping through a [try] body *)

Lemma try_except_bind_ok {A} (m : M A) k handler s a s1 :
  m s = (Ok a, s1) ->
  try_except (bind m k) handler s = try_except (k a) handler s1.
Proof. intros E. unfold try_except, bind. now rewrite E. Qed.

Lemma try_except_bind_raise {A} (m : M A) k handler s e s1 h :
  m s = (Raise e, s1) -> handler e = Some h ->
  try_except (bind m k) handler s = h s1.
Proof. intros E Hh. unfold try_except, bind. now rewrite E, Hh. Qed.

Lemma bind_run_ok {A B} (m : M A) (k : A -> M B) s a s1 :
  m s = (Ok a, s1) -> bind m k s = k a s1.
Proof. intros E. unfold bind. now rewrite E. Qed.

Lemma bind_run_raise {A B} (m : M A) (k : A -> M B) s e s1 :
  m s = (Raise e, s1) -> bind m k s = (Raise e, s1).
Proof. intros E. unfold bind. now rewrite E. Qed.

Section Listing.
Context {rt : Runtime}.

(** The loop of [output_nodes] over a table whose entries can be named. *)
Lemma output_nodes_loop items :
  nameable items = true ->
  forall s,
  exists s',
    for_each items (fun '(node_id, node) =>
      bind (dict_get node "user" (PyDict [])) (fun user =>
      bind (dict_get user "longName" (PyStr (lit "Unknown Node"))) (fun node_name =>
      bind (node_list_addItem (py_str (PyStr node_id) ++ lit ": " ++ py_str node_name))
        (fun _ =>
      log_message (lit "Node " ++ py_str (PyStr node_id) ++ lit ": " ++ py_str node_name)))))
      s
    = (Ok tt, s')
    /\ node_list s' = node_list s ++ map node_item items
    /\ message_list s'
       = message_list s ++ map (fun entry => lit "Node " ++ node_item entry) items
    /\ interface s' = interface s.
Proof.
  induction items as [|[node_id node] items IH]; intros Hn s.
  - exists s. cbn. now rewrite !app_nil_r.
  - cbn [nameable forallb] in Hn. apply andb_prop in Hn as [Hnode Hrest].
    destruct (long_name node) as [name|] eqn:Hname; [|discriminate].
    unfold long_name in Hname.
    destruct node as [| | | |fields]; try discriminate.
    destruct (from_option id (PyDict []) (dict_lookup (lit "user") fields))
      as [| | | |ufields] eqn:Huser; try discriminate.
    injection Hname as Hname.
    cbn [for_each].
    destruct (IH Hrest
                (logged (lit "Node " ++ py_str (PyStr node_id) ++ lit ": " ++ py_str name)
                   (set_node_list
                      (node_list s ++ [py_str (PyStr node_id) ++ lit ": " ++ py_str name])
                      s))) as (s' & Hrun & Hnl & Hml & Hif).
    exists s'. split; [|split; [|split]].
    + rewrite <- Hrun. unfold bind at 1. cbn [dict_get]. unfold ret.
      unfold bind at 1. rewrite Huser. cbn [dict_get]. unfold bind at 1, ret.
      rewrite Hname. reflexivity.
    + rewrite Hnl. cbn [map]. unfold node_item at 2. cbn [fst snd long_name].
      rewrite Huser, Hname. cbn. now rewrite <- app_assoc.
    + rewrite Hml. cbn [map]. unfold node_item at 2. cbn [fst snd long_name].
      rewrite Huser, Hname. cbn. now rewrite <- app_assoc.
    + rewrite Hif. reflexivity.
Qed.

Lemma output_nodes_lists_run s iface items :
  interface s = Some iface ->
  nodes iface = PyDict items ->
  nameable items = true ->
  exists s',
    output_nodes s = (Ok tt, s')
    /\ node_list s' = lit "Connected Nodes:" :: map node_item items
    /\ message_list s'
       = message_list s ++ map (fun entry => lit "Node " ++ node_item entry) items
    /\ interface s' = interface s.
Proof.
  intros Hi Hn Hok. unfold output_nodes.
  rewrite (bind_run_ok (get interface) _ s _ s eq_refl), Hi.
  erewrite bind_run_ok by reflexivity.
  erewrite bind_run_ok by reflexivity.
  erewrite bind_run_ok by (rewrite Hn; reflexivity).
  match goal with
  | |- context [for_each items _ ?st] =>
    destruct (output_nodes_loop items Hok st) as (s' & Hrun & Hnl & Hml & Hif)
  end.
  exists s'. split; [exact Hrun|]. now rewrite Hnl, Hml, Hif.
Qed.

Lemma output_nodes_raises_run s iface :
  interface s = Some iface ->
  (forall items, nodes iface <> PyDict items) ->
  exists s',
    output_nodes s = (Raise (attribute_error (nodes iface) "items"), s')
    /\ interface s' = interface s
    /\ message_list s' = message_list s
    /\ node_list s' = [lit "Connected Nodes:"].
Proof.
  intros Hi Hn. unfold output_nodes.
  rewrite (bind_run_ok (get interface) _ s _ s eq_refl), Hi.
  erewrite bind_run_ok by reflexivity.
  erewrite bind_run_ok by reflexivity.
  destruct (nodes iface) as [| | | |items];
    try (eexists; repeat split; first [reflexivity | exact Hi]).
  now destruct (Hn items).
Qed.

(** X4: while connected to a device whose node table is a mapping of
    entries that can be named, [output_nodes] returns normally, replaces
    the items of the node list by the heading [Connected Nodes:] followed by
    one item [{node_id}: {name}] per entry, in the order of the table, and
    logs one line [Node {node_id}: {name}] per entry; the name is the
    ['longName'] under ['user'], or [Unknown Node] when either key is
    missing. *)
Theorem output_nodes_lists_table s iface items :
  interface s = Some iface ->
  nodes iface = PyDict items ->
  nameable items = true ->
  result output_nodes s = Ok tt
  /\ node_list (final output_nodes s) = lit "Connected Nodes:" :: map node_item items
  /\ message_list (final output_nodes s)
     = message_list s ++ map (fun entry => lit "Node " ++ node_item entry) items.
Proof.
  intros Hi Hn Hok.
  destruct (output_nodes_lists_run s iface items Hi Hn Hok) as (s' & Hrun & Hnl & Hml & _).
  unfold result, final. now rewrite Hrun.
Qed.

(** X5: while connected to a device whose node table is not a mapping
    ([None], say), [output_nodes] raises the [AttributeError] of [.items()]
    to its caller, after it has emptied the node list: what the list showed
    is gone, only the heading is left, and nothing is logged. *)
Theorem output_nodes_without_table s iface :
  interface s = Some iface ->
  (forall items, nodes iface <> PyDict items) ->
  result output_nodes s = Raise (attribute_error (nodes iface) "items")
  /\ node_list (final output_nodes s) = [lit "Connected Nodes:"]
  /\ message_list (final output_nodes s) = message_list s.
Proof.
  intros Hi Hn.
  destruct (output_nodes_raises_run s iface Hi Hn) as (s' & Hrun & _ & Hml & Hnl).
  unfold result, final. now rewrite Hrun.
Qed.

(** The state in which [connect_to_device] calls [output_nodes]. *)
Lemma connect_to_device_reaches_listing s dev :
  SerialInterface (lit "/dev/ttyACM0") = inr dev ->
  connect_to_device s
  = try_except
      (bind output_nodes (fun _ => log_message (lit "Connected to Meshtastic device!")))
      (fun e => Some (log_message (lit "Error connecting to device: " ++ str_exn e)))
      (set_interface (Some (registered dev))
         (logged (lit "Connecting to Meshtastic device on /dev/ttyACM0...") s)).
Proof.
  intros Hdev. unfold connect_to_device.
  rewrite (try_except_bind_ok _ _ _ _ _ _ (log_message_run _ _)).
  erewrite try_except_bind_ok
    by (unfold new_SerialInterface; rewrite Hdev; reflexivity).
  erewrite try_except_bind_ok by reflexivity.
  erewrite try_except_bind_ok by reflexivity.
  reflexivity.
Qed.

(** X6: when the serial port cannot be opened, [connect_to_device] returns
    normally, keeps the device handle and the node list it had, and logs
    two lines: the announcement and [Error connecting to device: ] followed
    by the text of the exception. *)
Theorem connect_to_device_failure s text :
  SerialInterface (lit "/dev/ttyACM0") = inl text ->
  result connect_to_device s = Ok tt
  /\ interface (final connect_to_device s) = interface s
  /\ node_list (final connect_to_device s) = node_list s
  /\ message_list (final connect_to_device s)
     = message_list s
       ++ [lit "Connecting to Meshtastic device on /dev/ttyACM0...";
           lit "Error connecting to device: " ++ text].
Proof.
  intros Hdev. unfold result, final, connect_to_device.
  rewrite (try_except_bind_ok _ _ _ _ _ _ (log_message_run _ _)).
  erewrite try_except_bind_raise;
    [| unfold new_SerialInterface; rewrite Hdev; reflexivity | reflexivity].
  rewrite log_message_run. cbn. now rewrite <- app_assoc.
Qed.

(** X7: when the serial port opens and the node table of the device is a
    mapping of entries that can be named, [connect_to_device] returns
    normally holding the new handle with the receive callback registered,
    shows the heading and one item per node in the node list, and logs the
    announcement, one line per node and [Connected to Meshtastic device!]. *)
Theorem connect_to_device_success s dev items :
  SerialInterface (lit "/dev/ttyACM0") = inr dev ->
  nodes dev = PyDict items ->
  nameable items = true ->
  result connect_to_device s = Ok tt
  /\ interface (final connect_to_device s) = Some (registered dev)
  /\ node_list (final connect_to_device s) = lit "Connected Nodes:" :: map node_item items
  /\ message_list (final connect_to_device s)
     = message_list s
       ++ [lit "Connecting to Meshtastic device on /dev/ttyACM0..."]
       ++ map (fun entry => lit "Node " ++ node_item entry) items
       ++ [lit "Connected to Meshtastic device!"].
Proof.
  intros Hdev Hn Hok. unfold result, final.
  rewrite (connect_to_device_reaches_listing s dev Hdev).
  set (s1 := set_interface (Some (registered dev))
               (logged (lit "Connecting to Meshtastic device on /dev/ttyACM0...") s)).
  destruct (output_nodes_lists_run s1 (registered dev) items eq_refl Hn Hok)
    as (s2 & Hrun & Hnl & Hml & Hif).
  rewrite (try_except_bind_ok _ _ _ _ _ _ Hrun).
  unfold try_except. rewrite log_message_run. cbn [fst snd].
  split; [reflexivity|]. split; [|split].
  - cbn. now rewrite Hif.
  - cbn. now rewrite Hnl.
  - cbn. rewrite Hml. cbn. now rewrite <- !app_assoc.
Qed.

(** X8: when the serial port opens but the node table of the device is not
    a mapping, [connect_to_device] logs [Error connecting to device: ...]
    and yet holds the new handle, with the callback registered: the window
    is connected although the log says the connection failed. *)
Theorem connect_to_device_error_keeps_handle s dev :
  SerialInterface (lit "/dev/ttyACM0") = inr dev ->
  (forall items, nodes dev <> PyDict items) ->
  result connect_to_device s = Ok tt
  /\ interface (final connect_to_device s) = Some (registered dev)
  /\ message_list (final connect_to_device s)
     = message_list s
       ++ [lit "Connecting to Meshtastic device on /dev/ttyACM0...";
           lit "Error connecting to device: "
           ++ str_exn (attribute_error (nodes dev) "items")].
Proof.
  intros Hdev Hn. unfold result, final.
  rewrite (connect_to_device_reaches_listing s dev Hdev).
  set (s1 := set_interface (Some (registered dev))
               (logged (lit "Connecting to Meshtastic device on /dev/ttyACM0...") s)).
  destruct (output_nodes_raises_run s1 (registered dev) eq_refl Hn) as (s2 & Hrun & Hif & Hml & _).
  erewrite try_except_bind_raise; [| exact Hrun | reflexivity].
  rewrite log_message_run. cbn [fst snd].
  split; [reflexivity|]. split.
  - cbn. exact Hif.
  - cbn. rewrite Hml. cbn. now rewrite <- app_assoc.
Qed.

End Listing.

(** ** More on [strip] *)

Lemma lstrip_suffix t : exists p, t = p ++ lstrip t.
Proof.
  induction t as [|c t [p IH]]; [now exists []|].
  simpl. destruct (isspace c).
  - exists (c :: p). simpl. now rewrite <- IH.
  - now exists [].
Qed.

Lemma lstrip_head_not_space t c u : lstrip t = c :: u -> isspace c = false.
Proof.
  induction t as [|d t IH]; simpl; [discriminate|].
  destruct (isspace d) eqn:Hd; [exact IH|].
  intros [= <- _]. exact Hd.
Qed.

Lemma unpadded_strip t : unpadded (strip t) = true.
Proof.
  unfold strip, rstrip.
  destruct (lstrip_suffix (rev (lstrip t))) as [p Hp].
  destruct (lstrip (rev (lstrip t))) as [|c v] eqn:Ev; [reflexivity|].
  pose proof (lstrip_head_not_space _ _ _ Ev) as Hc.
  assert (Hu : lstrip t = rev (c :: v) ++ rev p).
  { rewrite <- rev_app_distr, <- Hp. now rewrite rev_involutive. }
  destruct (rev (c :: v)) as [|d w] eqn:Ew.
  { simpl in Ew. now destruct (rev v). }
  pose proof (lstrip_head_not_space t d (w ++ rev p) Hu) as Hd.
  unfold unpadded. rewrite Hd. rewrite <- Ew. simpl rev. rewrite last_last.
  now rewrite Hc.
Qed.

Section Sending.
Context {rt : Runtime}.

(** X9: while connected, when the input holds more than whitespace and
    [sendText] does not raise, [send_message] returns normally, has called
    [sendText] once with the stripped input, logs [Sent message: ] followed
    by the stripped input, and empties the input box. *)
Theorem send_message_sends s iface :
  interface s = Some iface ->
  only_whitespace (message_input s) = false ->
  sendText_raises iface (strip (message_input s)) = None ->
  result send_message s = Ok tt
  /\ calls (final send_message s)
     = calls s ++ [CallSendText (strip (message_input s))]
  /\ message_list (final send_message s)
     = message_list s ++ [lit "Sent message: " ++ strip (message_input s)]
  /\ message_input (final send_message s) = [].
Proof.
  intros Hi Hw Hr. unfold result, final.
  rewrite (send_message_connected s iface Hi).
  destruct (strip (message_input s)) as [|c m] eqn:Em.
  { apply strip_nil_inv in Em. congruence. }
  unfold sendText, bind, modify. rewrite Hr. now cbn.
Qed.

(** X10: while no device handle is held, [send_message] returns normally,
    logs [Device not connected. Please connect first.], calls nothing and
    leaves the input in the box, whatever the input is. *)
Theorem send_message_disconnected s :
  interface s = None ->
  result send_message s = Ok tt
  /\ calls (final send_message s) = calls s
  /\ message_list (final send_message s)
     = message_list s ++ [lit "Device not connected. Please connect first."]
  /\ message_input (final send_message s) = message_input s.
Proof.
  intros Hi. unfold result, final, send_message, bind, get. now rewrite Hi.
Qed.

(** X11: in every state [send_message] makes at most one call on the
    device, and the text it hands to [sendText] is never empty and neither
    starts nor ends with whitespace. *)
Theorem sent_text_is_trimmed s :
  calls (final send_message s) = calls s
  \/ exists message,
       calls (final send_message s) = calls s ++ [CallSendText message]
       /\ message <> []
       /\ unpadded message = true.
Proof.
  destruct (interface s) as [iface|] eqn:Hi.
  - destruct (strip (message_input s)) as [|c m] eqn:Em.
    + left. unfold final. now rewrite (send_message_refusal s iface Hi Em).
    + right. exists (c :: m). split; [|split].
      * rewrite <- Em. apply (send_message_calls s iface Hi). now rewrite Em.
      * discriminate.
      * rewrite <- Em. apply unpadded_strip.
  - left. unfold final, send_message, bind, get. now rewrite Hi.
Qed.

Lemma closeEvent_connected_run s iface :
  interface s = Some iface ->
  closeEvent s
  = (match close_raises iface with
     | Some text => Raise (OtherException text)
     | None => Ok tt
     end,
     set_calls (calls s ++ [CallClose]) s).
Proof.
  intros Hi. unfold closeEvent, close, bind, get, modify. rewrite Hi.
  now destruct (close_raises iface).
Qed.

(** X12: while a device handle is held, an exception of [close] leaves
    [closeEvent] for its caller, after the one call of [close]; and since
    [closeEvent] keeps the handle, a second [closeEvent] calls [close] on it
    again. *)
Theorem closeEvent_lets_exception_through s iface :
  interface s = Some iface ->
  (forall text, close_raises iface = Some text ->
     result closeEvent s = Raise (OtherException text))
  /\ (close_raises iface = None -> result closeEvent s = Ok tt)
  /\ calls (final closeEvent (final closeEvent s)) = calls s ++ [CallClose; CallClose].
Proof.
  intros Hi. unfold result, final.
  rewrite (closeEvent_connected_run s iface Hi). cbn [fst snd].
  rewrite (closeEvent_connected_run (set_calls (calls s ++ [CallClose]) s) iface Hi).
  cbn [fst snd calls set_calls].
  split; [now intros text ->|]. split; [now intros ->|].
  now rewrite <- app_assoc.
Qed.

End Sending.

(** ** Loading *)

Lemma load_loop messages s :
  for_each messages (fun message => message_list_append (strip message)) s
  = (Ok tt, set_message_list (message_list s ++ map strip messages) s).
Proof.
  revert s. induction messages as [|m messages IH]; intros s.
  - cbn. rewrite app_nil_r. now destruct s.
  - cbn [for_each map]. unfold bind, message_list_append at 1, modify.
    rewrite IH. cbn. now rewrite <- app_assoc.
Qed.

Lemma load_with_file_run s c :
  disk s !! log_file = Some (RegularFile c) ->
  load_messages_from_file s
  = (Ok tt, set_message_list (map strip (readlines c)) s).
Proof.
  intros Hf. unfold load_messages_from_file.
  erewrite try_except_bind_ok by reflexivity.
  erewrite try_except_bind_ok
    by (unfold read_lines_of_file; cbn [disk set_message_list]; rewrite Hf; reflexivity).
  unfold try_except. now rewrite load_loop.
Qed.

Lemma load_blocked_run s :
  disk s !! log_file = Some Directory ->
  load_messages_from_file s
  = (Ok tt,
     logged (lit "Error loading messages: [Errno 21] Is a directory: 'messages.log'")
       (set_message_list [] s)).
Proof.
  intros Hf. unfold load_messages_from_file.
  erewrite try_except_bind_ok by reflexivity.
  assert (E : read_lines_of_file log_file (set_message_list [] s)
              = (Raise (OtherException
                          (lit "[Errno 21] Is a directory: '" ++ lit log_file ++ lit "'")),
                 set_message_list [] s)).
  { unfold read_lines_of_file. cbn [disk set_message_list]. now rewrite Hf. }
  now rewrite (try_except_bind_raise _ _ _ _ _ _ _ E eq_refl).
Qed.

(** X13: when the log file exists, [load_messages_from_file] returns
    normally and replaces the visible log by the lines of the file, one
    entry per line, each stripped of the whitespace around it; it prints
    nothing and leaves the disk as it was. *)
Theorem load_shows_file s c :
  disk s !! log_file = Some (RegularFile c) ->
  result load_messages_from_file s = Ok tt
  /\ message_list (final load_messages_from_file s) = map strip (readlines c)
  /\ stdout (final load_messages_from_file s) = stdout s
  /\ disk (final load_messages_from_file s) = disk s.
Proof.
  intros Hf. unfold result, final. now rewrite (load_with_file_run s c Hf).
Qed.

(** X14: when the log path is a directory, [load_messages_from_file]
    returns normally and leaves in the visible log only the line
    [Error loading messages: ] followed by the text of the exception. *)
Theorem load_blocked s :
  disk s !! log_file = Some Directory ->
  result load_messages_from_file s = Ok tt
  /\ message_list (final load_messages_from_file s)
     = [lit "Error loading messages: [Errno 21] Is a directory: 'messages.log'"]
  /\ disk (final load_messages_from_file s) = disk s.
Proof.
  intros Hf. unfold result, final. now rewrite (load_blocked_run s Hf).
Qed.


(** ** Receiving, further *)

Section ReceivingMore.
Context {rt : Runtime}.

Lemma subscript_cases v k :
  (exists x, subscript v k = ret x) \/ (exists e, subscript v k = raise e).
Proof.
  destruct v; cbn [subscript]; eauto.
  destruct (dict_lookup (lit k) items); eauto.
Qed.

Lemma decode_cases v :
  (exists t, decode v = ret t) \/ (exists e, decode v = raise e).
Proof.
  destruct v; cbn [decode]; eauto.
  destruct (decode_utf8 b); eauto.
Qed.

Lemma equals_cases v :
  (exists b, equals_TEXT_MESSAGE_APP v = ret b)
  \/ (exists e, equals_TEXT_MESSAGE_APP v = raise e).
Proof. unfold equals_TEXT_MESSAGE_APP. destruct PortNum_TEXT_MESSAGE_APP; eauto. Qed.

Lemma append_to_file_cases path text s :
  (exists d, append_to_file path text s = (Ok tt, set_disk d s))
  \/ (exists e, append_to_file path text s = (Raise e, s)).
Proof. unfold append_to_file. destruct (disk s !! path) as [[]|]; eauto. Qed.

Ltac run_eval :=
  cbv beta iota delta [try_except bind ret raise get modify].

Ltac run_pure :=
  match goal with
  | |- context [subscript ?v ?k] =>
    destruct (subscript_cases v k) as [[? ->]|[? ->]]
  | |- context [decode ?v] =>
    destruct (decode_cases v) as [[? ->]|[? ->]]
  | |- context [append_to_file ?p ?t ?s] =>
    destruct (append_to_file_cases p t s) as [[? ->]|[? ->]]
  | |- context [equals_TEXT_MESSAGE_APP ?v] =>
    destruct (equals_cases v) as [[[] ->]|[? ->]]
  | |- context [match ?e with KeyError _ => _ | _ => _ end] =>
    destruct e
  end; run_eval.

(** X16: for every packet, whatever its shape, [on_message_received]
    appends the raw packet line to the visible log first, and after it one
    or two further lines. *)
Theorem every_packet_logged_raw packet s :
  exists more,
    message_list (final (on_message_received packet) s)
    = message_list s ++ (lit "Raw packet received: " ++ py_str packet) :: more
    /\ (1 <= length more <= 2)%nat.
Proof.
  unfold final, on_message_received. run_eval. rewrite log_message_run. run_eval.
  repeat first [run_pure | rewrite log_message_run; run_eval];
    cbn [snd message_list logged set_message_list set_stdout set_disk];
    rewrite <- ?app_assoc; cbn [app];
    eexists; (split; [reflexivity | cbn; lia]).
Qed.


(** X21: with a library whose [mesh_pb2] has no [PortNum], every packet
    that has a portnum under ['decoded'], text message or not, gets the
    same two lines, the raw packet line and [Error processing message: ]
    followed by the text of the [AttributeError]; the callback returns
    normally and the disk is as it was. *)
Theorem marker_lookup_failure_reported packet decoded portnum text s :
  PortNum_TEXT_MESSAGE_APP = inl text ->
  field packet "decoded" = Some decoded ->
  field decoded "portnum" = Some portnum ->
  result (on_message_received packet) s = Ok tt
  /\ disk (final (on_message_received packet) s) = disk s
  /\ message_list (final (on_message_received packet) s)
     = message_list s
       ++ [lit "Raw packet received: " ++ py_str packet;
           lit "Error processing message: " ++ text].
Proof.
  intros Ht Hd Hp. unfold result, final.
  rewrite (receive_marker_unavailable packet decoded portnum text s Hd Hp Ht).
  cbn [fst snd]. split; [reflexivity|]. split; [reflexivity|].
  cbn. now rewrite <- !app_assoc.
Qed.

(** X22: with a library whose [mesh_pb2] has no [PortNum], no operation
    changes the disk, for any packet and in any state: the log file is
    never created and never written. *)
Theorem log_file_never_written op text s :
  PortNum_TEXT_MESSAGE_APP = inl text ->
  disk (final (run op) s) = disk s.
Proof.
  intros Ht. unfold final. destruct op; cbn [run].
  - apply connect_to_device_same_disk.
  - unfold on_message_received. run_eval. rewrite log_message_run. run_eval.
    repeat first
      [ rewrite (equals_marker_raises _ _ Ht); run_eval
      | run_pure
      | rewrite log_message_run; run_eval ];
      reflexivity.
  - apply load_messages_from_file_same_disk.
  - apply output_nodes_same_disk.
  - apply send_message_same_disk.
  - apply log_message_same_disk.
  - apply closeEvent_same_disk.
Qed.

(** Once the serial port has opened, the handle is held, whatever happens
    while the nodes are listed; connecting makes no call on the device and
    leaves the input box alone. *)
Lemma connect_to_device_holds_handle s dev :
  SerialInterface (lit "/dev/ttyACM0") = inr dev ->
  interface (final connect_to_device s) = Some (registered dev)
  /\ calls (final connect_to_device s) = calls s
  /\ message_input (final connect_to_device s) = message_input s.
Proof.
  intros Hdev. split; [|split].
  - unfold final. rewrite (connect_to_device_reaches_listing s dev Hdev).
    match goal with
    | |- interface (snd (?m ?s1)) = _ =>
      assert (H : keeps same_interface m); [|exact (H s1)]
    end.
    apply keeps_try_except; [exact same_interface_trans | |].
    + apply keeps_bind; [exact same_interface_trans | | intros _; now intros ?].
      apply output_nodes_keeps;
        [ now intros ? | exact same_interface_trans | now intros ? ? | now intros ? ? ].
    + intros e h [= <-]. now intros ?.
  - apply (connect_to_device_keeps same_calls); try (now intros ?); try (now intros ? ?).
    exact same_calls_trans.
  - apply (connect_to_device_keeps same_message_input);
      try (now intros ?); try (now intros ? ?).
    exact same_message_input_trans.
Qed.

(** X20: connecting and then sending.  Once the serial port has opened
    (whether or not listing the nodes then failed), [send_message] on an
    input that holds more than whitespace calls [sendText] with the
    stripped input, and that is the only call made on the device. *)
Theorem connect_then_send s dev :
  SerialInterface (lit "/dev/ttyACM0") = inr dev ->
  only_whitespace (message_input s) = false ->
  calls (final send_message (final connect_to_device s))
  = calls s ++ [CallSendText (strip (message_input s))].
Proof.
  intros Hdev Hw.
  destruct (connect_to_device_holds_handle s dev Hdev) as (Hi & Hc & Hm).
  rewrite (send_message_calls _ _ Hi).
  - now rewrite Hc, Hm.
  - rewrite Hm. intros Hs. apply strip_nil_inv in Hs. congruence.
Qed.

End ReceivingMore.

(** ** The further properties on the bench *)

(** X2 at the receive callback. *)
Lemma terminal_mirrors_log_on_bench :
  exists new,
    stdout (final (run (rt := bench_runtime) (OnMessageReceived text_packet)) session_state)
    = stdout session_state ++ new
    /\ message_list
         (final (run (rt := bench_runtime) (OnMessageReceived text_packet)) session_state)
       = message_list session_state ++ new.
Proof.
  apply (terminal_mirrors_log (rt := bench_runtime) (OnMessageReceived text_packet)
           session_state).
  discriminate.
Defined.

(** X4 on the two nodes of [bench_device]. *)
Lemma output_nodes_lists_table_on_bench :
  result (output_nodes (rt := bench_runtime)) session_state = Ok tt
  /\ node_list (final (output_nodes (rt := bench_runtime)) session_state)
     = lit "Connected Nodes:" :: map (node_item (rt := bench_runtime)) bench_table
  /\ message_list (final (output_nodes (rt := bench_runtime)) session_state)
     = message_list session_state
       ++ map (fun entry => lit "Node " ++ node_item (rt := bench_runtime) entry)
            bench_table.
Proof.
  apply (output_nodes_lists_table (rt := bench_runtime) session_state bench_device
           bench_table); reflexivity.
Defined.

(** X5 on a device without node table. *)
Lemma output_nodes_without_table_on_bench :
  result (output_nodes (rt := fresh_runtime)) (connected_state fresh_device "")
  = Raise (attribute_error (nodes fresh_device) "items")
  /\ node_list (final (output_nodes (rt := fresh_runtime)) (connected_state fresh_device ""))
     = [lit "Connected Nodes:"]
  /\ message_list (final (output_nodes (rt := fresh_runtime))
                     (connected_state fresh_device ""))
     = message_list (connected_state fresh_device "").
Proof.
  apply (output_nodes_without_table (rt := fresh_runtime)
           (connected_state fresh_device "") fresh_device); [reflexivity|].
  intros items. discriminate.
Defined.

(** X6 without serial port. *)
Lemma connect_to_device_failure_on_bench :
  result (connect_to_device (rt := no_port_runtime)) initial_state = Ok tt
  /\ interface (final (connect_to_device (rt := no_port_runtime)) initial_state)
     = interface initial_state
  /\ node_list (final (connect_to_device (rt := no_port_runtime)) initial_state)
     = node_list initial_state
  /\ message_list (final (connect_to_device (rt := no_port_runtime)) initial_state)
     = message_list initial_state
       ++ [lit "Connecting to Meshtastic device on /dev/ttyACM0...";
           lit "Error connecting to device: "
           ++ lit "[Errno 2] could not open port /dev/ttyACM0"].
Proof.
  apply (connect_to_device_failure (rt := no_port_runtime) initial_state
           (lit "[Errno 2] could not open port /dev/ttyACM0")).
  reflexivity.
Defined.

(** X7 on [bench_device]. *)
Lemma connect_to_device_success_on_bench :
  result (connect_to_device (rt := bench_runtime)) initial_state = Ok tt
  /\ interface (final (connect_to_device (rt := bench_runtime)) initial_state)
     = Some (registered bench_device)
  /\ node_list (final (connect_to_device (rt := bench_runtime)) initial_state)
     = lit "Connected Nodes:" :: map (node_item (rt := bench_runtime)) bench_table
  /\ message_list (final (connect_to_device (rt := bench_runtime)) initial_state)
     = message_list initial_state
       ++ [lit "Connecting to Meshtastic device on /dev/ttyACM0..."]
       ++ map (fun entry => lit "Node " ++ node_item (rt := bench_runtime) entry)
            bench_table
       ++ [lit "Connected to Meshtastic device!"].
Proof.
  apply (connect_to_device_success (rt := bench_runtime) initial_state bench_device
           bench_table); reflexivity.
Defined.

(** X8 on a device without node table. *)
Lemma connect_to_device_error_keeps_handle_on_bench :
  result (connect_to_device (rt := fresh_runtime)) initial_state = Ok tt
  /\ interface (final (connect_to_device (rt := fresh_runtime)) initial_state)
     = Some (registered fresh_device)
  /\ message_list (final (connect_to_device (rt := fresh_runtime)) initial_state)
     = message_list initial_state
       ++ [lit "Connecting to Meshtastic device on /dev/ttyACM0...";
           lit "Error connecting to device: "
           ++ str_exn (attribute_error (nodes fresh_device) "items")].
Proof.
  apply (connect_to_device_error_keeps_handle (rt := fresh_runtime) initial_state
           fresh_device); [reflexivity|].
  intros items. discriminate.
Defined.

(** X9 at the input [ hi ]. *)
Lemma send_message_sends_on_bench :
  result send_message (connected_state bench_device " hi ") = Ok tt
  /\ calls (final send_message (connected_state bench_device " hi "))
     = calls (connected_state bench_device " hi ")
       ++ [CallSendText (strip (message_input (connected_state bench_device " hi ")))]
  /\ message_list (final send_message (connected_state bench_device " hi "))
     = message_list (connected_state bench_device " hi ")
       ++ [lit "Sent message: "
           ++ strip (message_input (connected_state bench_device " hi "))]
  /\ message_input (final send_message (connected_state bench_device " hi ")) = [].
Proof.
  apply (send_message_sends (connected_state bench_device " hi ") bench_device);
    reflexivity.
Defined.

(** X10 with [hi] in the box of a window that is not connected. *)
Lemma send_message_disconnected_on_bench :
  result send_message (set_message_input (lit "hi") initial_state) = Ok tt
  /\ calls (final send_message (set_message_input (lit "hi") initial_state))
     = calls (set_message_input (lit "hi") initial_state)
  /\ message_list (final send_message (set_message_input (lit "hi") initial_state))
     = message_list (set_message_input (lit "hi") initial_state)
       ++ [lit "Device not connected. Please connect first."]
  /\ message_input (final send_message (set_message_input (lit "hi") initial_state))
     = message_input (set_message_input (lit "hi") initial_state).
Proof.
  apply (send_message_disconnected (set_message_input (lit "hi") initial_state)).
  reflexivity.
Defined.

(** X12 on a device whose [close] raises. *)
Lemma closeEvent_lets_exception_through_on_bench :
  result closeEvent (connected_state stuck_device "")
  = Raise (OtherException (lit "port is not open"))
  /\ calls (final closeEvent (final closeEvent (connected_state stuck_device "")))
     = calls (connected_state stuck_device "") ++ [CallClose; CallClose].
Proof.
  destruct (closeEvent_lets_exception_through (connected_state stuck_device "")
              stuck_device eq_refl) as (Hraise & _ & Htwice).
  split; [exact (Hraise (lit "port is not open") eq_refl) | exact Htwice].
Defined.

(** X13 on a log file that holds one message. *)
Lemma load_shows_file_on_bench :
  result load_messages_from_file session_state = Ok tt
  /\ message_list (final load_messages_from_file session_state)
     = map strip (readlines (earlier_line ++ [10]))
  /\ stdout (final load_messages_from_file session_state) = stdout session_state
  /\ disk (final load_messages_from_file session_state) = disk session_state.
Proof.
  apply (load_shows_file session_state (earlier_line ++ [10])).
  apply lookup_singleton_eq.
Defined.

(** X14 with a directory in the place of the log file. *)
Lemma load_blocked_on_bench :
  result load_messages_from_file blocked_state = Ok tt
  /\ message_list (final load_messages_from_file blocked_state)
     = [lit "Error loading messages: [Errno 21] Is a directory: 'messages.log'"]
  /\ disk (final load_messages_from_file blocked_state) = disk blocked_state.
Proof.
  apply (load_blocked blocked_state). apply lookup_singleton_eq.
Defined.

(** X21 at a text message without sender, the library as released. *)
Lemma marker_lookup_failure_reported_on_bench :
  result (on_message_received (rt := library_runtime) delivered_anonymous_packet)
    session_state
  = Ok tt
  /\ disk (final (on_message_received (rt := library_runtime) delivered_anonymous_packet)
             session_state)
     = disk session_state
  /\ message_list
       (final (on_message_received (rt := library_runtime) delivered_anonymous_packet)
          session_state)
     = message_list session_state
       ++ [lit "Raw packet received: " ++ str_value delivered_anonymous_packet;
           lit "Error processing message: "
           ++ lit "module 'meshtastic.mesh_pb2' has no attribute 'PortNum'"].
Proof.
  apply (marker_lookup_failure_reported (rt := library_runtime) delivered_anonymous_packet
           (PyDict [(lit "portnum", PyStr (lit "TEXT_MESSAGE_APP"));
                    (lit "payload", PyBytes ["h"%byte; "i"%byte])])
           (PyStr (lit "TEXT_MESSAGE_APP"))
           (lit "module 'meshtastic.mesh_pb2' has no attribute 'PortNum'")
           session_state); reflexivity.
Defined.

(** X22 at the receive callback and a text message, the library as
    released. *)
Lemma log_file_never_written_on_bench :
  disk (final (run (rt := library_runtime) (OnMessageReceived delivered_text_packet))
          session_state)
  = disk session_state.
Proof.
  apply (log_file_never_written (rt := library_runtime)
           (OnMessageReceived delivered_text_packet)
           (lit "module 'meshtastic.mesh_pb2' has no attribute 'PortNum'") session_state).
  reflexivity.
Defined.

(** X20 from the window as it starts, with [ hi ] typed in. *)
Lemma connect_then_send_on_bench :
  calls (final send_message
           (final (connect_to_device (rt := bench_runtime))
              (set_message_input (lit " hi ") initial_state)))
  = calls (set_message_input (lit " hi ") initial_state)
    ++ [CallSendText (strip (message_input (set_message_input (lit " hi ") initial_state)))].
Proof.
  apply (connect_then_send (rt := bench_runtime)
           (set_message_input (lit " hi ") initial_state) bench_device); reflexivity.
Defined.
